(** * Fallback block processing of the Zilliqa node

    A shallow embedding of [src/libNode/FallbackBlockProcessing.cpp]:
    [Node::UpdateDSCommitteeAfterFallback],
    [Node::VerifyFallbackBlockCoSignature], [Node::ProcessFallbackBlock]
    and [Node::SendFallbackBlockToOtherShardNodes].

    The functions of the node are written in a small monad that threads
    the node's mutable members, records the calls made to collaborators
    (locks taken, checks evaluated, cryptography, storage, broadcast) and
    implements the early [return] of the C++ code. *)

From Stdlib Require Import ZArith Lia.
From Stdlib.Strings Require Import Byte.
From stdpp Require Import base numbers option list gmap.

Local Open Scope Z_scope.

(** ** Machine integers and byte buffers *)

(** [unsigned int] / [uint32_t] arithmetic. *)
Definition wrap32 (z : Z) : Z := z mod 2 ^ 32.

(** [uint64_t] arithmetic. *)
Definition wrap64 (z : Z) : Z := z mod 2 ^ 64.

(** [bytes] is [std::vector<unsigned char>]. *)
Definition bytes := list byte.

(** [dst.resize(n)] on a buffer that is shorter than [n]: zero fill. *)
Definition resize_up (n : nat) (dst : bytes) : bytes :=
  dst ++ replicate (n - length dst) x00.

(** Modelled from the spec: the serializers [Serializable::Serialize]
    and [BitVector::SetBitVector] are not under src/. Each receives
    [(dst, offset)] and places its encoding in [dst] starting at [offset],
    growing [dst] when it is too short; the spec calls the result "header
    bytes, followed by the inner signature bytes, followed by the
    bit-vector encoding". [write_at dst offset data] is that placement. *)
Definition write_at (dst : bytes) (offset : nat) (data : bytes) : bytes :=
  let need := (offset + length data)%nat in
  let dst' := if (length dst <? need)%nat then resize_up need dst else dst in
  take offset dst' ++ data ++ drop need dst'.

(** ** Shards and committees *)

Section FallbackBlockProcessing.

(** Types of the node that are declared outside the two files at hand:
    keys, network addresses, signatures, the three hash types, the block
    storage handle and the per-epoch records of processed transactions.
    The code compares keys, addresses and hashes with [==] and [!=]. *)
Context {PubKey Peer Signature BlockHash CommitteeHash StateHash : Type}.
Context {BlockStorage TxnRecords : Type}.
Context `{EqDecision PubKey, EqDecision Peer, EqDecision BlockHash}.
Context `{EqDecision CommitteeHash, EqDecision StateHash}.

(** A shard member is the tuple [(PubKey, Peer, uint16_t)]; the
    positions are [SHARD_NODE_PUBKEY] and [SHARD_NODE_PEER]. *)
Definition ShardNode : Type := PubKey * Peer * Z.
Definition SHARD_NODE_PUBKEY (n : ShardNode) : PubKey := n.1.1.
Definition SHARD_NODE_PEER (n : ShardNode) : Peer := n.1.2.

Definition Shard : Type := list ShardNode.
Definition DequeOfShard : Type := list Shard.
Definition DequeOfNode : Type := list (PubKey * Peer).

(** The pair a shard member contributes to a committee. *)
Definition node_pair (n : ShardNode) : PubKey * Peer :=
  (SHARD_NODE_PUBKEY n, SHARD_NODE_PEER n).

(** The test of the loop body: both the key and the address agree. *)
Definition is_leader (leaderPubKey : PubKey) (leaderNetworkInfo : Peer)
    (shardNode : ShardNode) : bool :=
  bool_decide (SHARD_NODE_PUBKEY shardNode = leaderPubKey)
  && bool_decide (SHARD_NODE_PEER shardNode = leaderNetworkInfo).

Definition deque_clear (d : DequeOfNode) : DequeOfNode := [].
Definition push_front (x : PubKey * Peer) (d : DequeOfNode) : DequeOfNode :=
  x :: d.
Definition push_back (x : PubKey * Peer) (d : DequeOfNode) : DequeOfNode :=
  d ++ [x].

(** One iteration of the range-for over [shards[shard_id]]. *)
Definition succession_step (leaderPubKey : PubKey) (leaderNetworkInfo : Peer)
    (dsComm : DequeOfNode) (shardNode : ShardNode) : DequeOfNode :=
  if is_leader leaderPubKey leaderNetworkInfo shardNode
  then push_front (leaderPubKey, leaderNetworkInfo) dsComm
  else push_back (SHARD_NODE_PUBKEY shardNode, SHARD_NODE_PEER shardNode) dsComm.

(** [Node::UpdateDSCommitteeAfterFallback]. [shards[shard_id]] is the
    unchecked [operator[]]: an index past the end has no defined
    behaviour, which is [None] here. *)
Definition UpdateDSCommitteeAfterFallback (shard_id : N)
    (leaderPubKey : PubKey) (leaderNetworkInfo : Peer)
    (dsComm : DequeOfNode) (shards : DequeOfShard) : option DequeOfNode :=
  match shards !! N.to_nat shard_id with
  | None => None
  | Some shard =>
      Some (foldl (succession_step leaderPubKey leaderNetworkInfo)
                  (deque_clear dsComm) shard)
  end.

(** *** The shape of the new committee *)

(** The container names of the source are aliases of [list]; rewriting
    with the list lemmas needs them unfolded. *)
Local Ltac unalias :=
  unfold DequeOfShard, DequeOfNode, bytes in *; unfold Shard in *.

Lemma is_leader_spec pk peer n :
  is_leader pk peer n = true ↔ node_pair n = (pk, peer).
Proof.
  unfold is_leader, node_pair.
  rewrite andb_true_iff, !bool_decide_eq_true. split.
  - intros [-> ->]. reflexivity.
  - intros E. injection E as -> ->. auto.
Qed.

Definition others (pk : PubKey) (peer : Peer) (shard : Shard) : DequeOfNode :=
  node_pair <$> filter (λ n, is_leader pk peer n = false) shard.

Definition leaders (pk : PubKey) (peer : Peer) (shard : Shard) : nat :=
  length (filter (λ n, is_leader pk peer n = true) shard).

Lemma replicate_snoc_cons {A} (k : nat) (x : A) (l : list A) :
  replicate k x ++ x :: l = x :: replicate k x ++ l.
Proof. induction k as [|k IH]; simpl; [reflexivity | by rewrite IH]. Qed.

(** Every matching member puts one leader pair at the front; the others
    queue up behind, in shard order. *)
Lemma succession_fold pk peer (shard : Shard) (acc : DequeOfNode) :
  foldl (succession_step pk peer) acc shard
  = replicate (leaders pk peer shard) (pk, peer) ++ acc ++ others pk peer shard.
Proof.
  revert acc. induction shard as [|n shard IH]; intros acc.
  - simpl. by rewrite app_nil_r.
  - cbn [foldl]. rewrite IH. unfold succession_step, leaders, others.
    unalias. rewrite !filter_cons.
    destruct (is_leader pk peer n) eqn:E.
    + rewrite decide_True by done. rewrite decide_False by done.
      simpl. unfold push_front. by rewrite replicate_snoc_cons.
    + rewrite decide_False by done. rewrite decide_True by done.
      unfold push_back. rewrite fmap_cons, <- app_assoc. reflexivity.
Qed.

Lemma filter_none_leader pk peer (l : Shard) :
  Forall (λ n, node_pair n ≠ (pk, peer)) l →
  filter (λ n, is_leader pk peer n = true) l = []
  ∧ filter (λ n, is_leader pk peer n = false) l = l.
Proof.
  unalias. induction 1 as [|n l Hn _ [IH1 IH2]]; [done|].
  rewrite !filter_cons.
  assert (is_leader pk peer n = false) as E.
  { destruct (is_leader pk peer n) eqn:E; [|done].
    apply is_leader_spec in E. done. }
  rewrite E. rewrite decide_False by done. rewrite decide_True by done.
  by rewrite IH1, IH2.
Qed.


(** ** Blocks *)

(** The accessors of [FallbackBlockHeader] that the file calls. The
    shard id ([uint32_t]) and the leader's consensus id ([uint16_t]) are
    only compared with sizes and used as indices. *)
Record FallbackBlockHeader : Type := {
  GetVersion : Z;
  GetShardId : N;
  GetLeaderPubKey : PubKey;
  GetLeaderNetworkInfo : Peer;
  GetLeaderConsensusId : N;
  GetFallbackDSEpochNo : Z;
  GetFallbackEpochNo : Z;
  GetStateRootHash : StateHash;
  GetCommitteeHash : CommitteeHash;
}.

(** The accessors of [FallbackBlock] that the file calls. *)
Record FallbackBlock : Type := {
  GetHeader : FallbackBlockHeader;
  GetBlockHash : BlockHash;
  GetTimestamp : Z;
  GetCS1 : Signature;
  GetB1 : list bool;
  GetCS2 : Signature;
  GetB2 : list bool;
}.

(** [BlockType]; this file only ever writes [BlockType::FB]. *)
Inductive BlockType : Type := DS | VC | FB.

(** Modelled from the spec: the BlockLink chain ([m_blocklinkchain]) is
    not under src/. A BlockLink is "a record of (index, epoch number,
    block-type tag, block hash), appended to a strictly monotonic,
    append-only chain"; adding a link "never mutates or removes prior
    entries". The index is the one the caller passes. *)
Definition BlockLink : Type := Z * Z * BlockType * BlockHash.

Definition AddBlockLink (index dsindex : Z) (blocktype : BlockType)
    (blockhash : BlockHash) (chain : list BlockLink) : list BlockLink :=
  chain ++ [(index, dsindex, blocktype, blockhash)].

(** ** The node *)

(** The members of the node (and of the mediator, the directory service
    and the account store it reaches) that the file reads or writes. *)
Record Node : Type := {
  m_shards : DequeOfShard;
  m_DSCommittee : DequeOfNode;
  m_blocklinkchain : list BlockLink;
  blockStorage : BlockStorage;
  accountStateRootHash : StateHash;
  m_currentEpochNum : Z;
  m_processedTransactions : gmap Z TxnRecords;
  m_consensusID : Z;
  m_consensusLeaderID : Z;
}.

Definition set_DSCommittee (d : DequeOfNode) (s : Node) : Node :=
  {| m_shards := m_shards s; m_DSCommittee := d;
     m_blocklinkchain := m_blocklinkchain s; blockStorage := blockStorage s;
     accountStateRootHash := accountStateRootHash s;
     m_currentEpochNum := m_currentEpochNum s;
     m_processedTransactions := m_processedTransactions s;
     m_consensusID := m_consensusID s;
     m_consensusLeaderID := m_consensusLeaderID s |}.

Definition set_blocklinkchain (c : list BlockLink) (s : Node) : Node :=
  {| m_shards := m_shards s; m_DSCommittee := m_DSCommittee s;
     m_blocklinkchain := c; blockStorage := blockStorage s;
     accountStateRootHash := accountStateRootHash s;
     m_currentEpochNum := m_currentEpochNum s;
     m_processedTransactions := m_processedTransactions s;
     m_consensusID := m_consensusID s;
     m_consensusLeaderID := m_consensusLeaderID s |}.

Definition set_blockStorage (b : BlockStorage) (s : Node) : Node :=
  {| m_shards := m_shards s; m_DSCommittee := m_DSCommittee s;
     m_blocklinkchain := m_blocklinkchain s; blockStorage := b;
     accountStateRootHash := accountStateRootHash s;
     m_currentEpochNum := m_currentEpochNum s;
     m_processedTransactions := m_processedTransactions s;
     m_consensusID := m_consensusID s;
     m_consensusLeaderID := m_consensusLeaderID s |}.

Definition set_processedTransactions (t : gmap Z TxnRecords) (s : Node) : Node :=
  {| m_shards := m_shards s; m_DSCommittee := m_DSCommittee s;
     m_blocklinkchain := m_blocklinkchain s; blockStorage := blockStorage s;
     accountStateRootHash := accountStateRootHash s;
     m_currentEpochNum := m_currentEpochNum s;
     m_processedTransactions := t;
     m_consensusID := m_consensusID s;
     m_consensusLeaderID := m_consensusLeaderID s |}.

Definition set_consensusIDs (id leader : Z) (s : Node) : Node :=
  {| m_shards := m_shards s; m_DSCommittee := m_DSCommittee s;
     m_blocklinkchain := m_blocklinkchain s; blockStorage := blockStorage s;
     accountStateRootHash := accountStateRootHash s;
     m_currentEpochNum := m_currentEpochNum s;
     m_processedTransactions := m_processedTransactions s;
     m_consensusID := id;
     m_consensusLeaderID := leader |}.

(** ** What lies outside the file *)

(** Constants of [common/Constants.h] and [common/Messages.h], and the
    collaborators the file calls: the node's own state machine and
    condition variable, the message codec, the mediator, the timestamp
    verifier, the consensus threshold, the multi-signature library, the
    serializers, the block storage and the BlockLink chain's reader. None
    of them is under src/; a run of the file's functions is relative to
    one choice of them. *)
Record Externals : Type := {
  FALLBACKBLOCK_VERSION : Z;
  CONSENSUS_OBJECT_TIMEOUT : Z;
  FALLBACK_INTERVAL_WAITING : Z;
  FALLBACK_CHECK_INTERVAL : Z;
  FALLBACK_EXTRA_TIME : Z;
  LOOKUP_NODE_MODE : bool;
  BROADCAST_TREEBASED_CLUSTER_MODE : bool;
  NUM_FORWARDED_BLOCK_RECEIVERS_PER_SHARD : Z;
  NUM_DS_ELECTION : Z;
  NUM_OF_TREEBASED_CHILD_CLUSTERS : Z;
  MessageType_NODE : byte;
  NodeInstructionType_FALLBACKBLOCK : byte;
  MessageOffset_BODY : nat;
  (** [CheckState(PROCESS_FALLBACKBLOCK)] at the time of the call. *)
  CheckState_PROCESS_FALLBACKBLOCK : bool;
  (** The result of [cv_fallbackBlock.wait_for]: whether [m_state]
      became [WAITING_FALLBACKBLOCK] within [FALLBACK_EXTRA_TIME]. *)
  cv_fallbackBlock_wait_for : bool;
  GetNodeFallbackBlock : bytes → nat → option FallbackBlock;
  CheckWhetherBlockIsLatest : Z → Z → bool;
  GetMyHash : FallbackBlockHeader → BlockHash;
  VerifyTimestamp : Z → Z → bool;
  GetShardHash : Shard → option CommitteeHash;
  NumForConsensus : Z → Z;
  AggregatePubKeys : list PubKey → option PubKey;
  MultiSigVerify : bytes → nat → nat → Signature → PubKey → bool;
  (** The encodings the serializers place in the buffer; the header's
      serializer can fail. *)
  Header_encoding : FallbackBlockHeader → option bytes;
  Signature_encoding : Signature → bytes;
  BitVector_encoding : list bool → bytes;
  FallbackBlockWShardingStructure_encoding :
    FallbackBlock → DequeOfShard → option bytes;
  PutFallbackBlock : BlockStorage → BlockHash → bytes → bool * BlockStorage;
  GetLatestIndex : list BlockLink → Z;
  SetNodeFallbackBlock : bytes → nat → FallbackBlock → option bytes;
}.

Variable X : Externals.

(** ** Calls, locks and checks, as a run records them *)

Inductive mutex : Type :=
| m_MutexCVFallbackBlock
| m_mutexShards
| m_mutexDSCommittee
| m_mutexProcessedTransactions.

(** The checks of [ProcessFallbackBlock], one for each group of
    [return false] of the source, under the names the specification
    gives them. *)
Inductive stage : Type :=
| AWAIT_READY
| DECODE
| VERSION_CHECK
| FRESHNESS_CHECK
| HASH_INTEGRITY_CHECK
| TIMESTAMP_CHECK
| SHARD_EXISTENCE_CHECK
| COMMITTEE_HASH_CHECK
| LEADER_IDENTITY_CHECK
| STATE_ROOT_CHECK
| COSIG_CHECK.

Inductive event : Type :=
| EvLock (m : mutex)
| EvUnlock (m : mutex)
| EvCheck (s : stage) (passed : bool)
| EvAggregatePubKeys (keys : list PubKey)
| EvMultiSigVerify (message : bytes) (offset size : nat)
    (sig : Signature) (key : PubKey)
| EvAddBlockLink (link : BlockLink)
| EvPutFallbackBlock (h : BlockHash) (dst : bytes)
| EvFallbackTimerPulse
| EvUpdateDSCommitteeAfterFallback
| EvDetachedFunction_writeStateToDisk
| EvSendBlockToOtherShardNodes (message : bytes)
    (cluster_size num_of_child_clusters : Z)
| EvCleanCreatedTransaction
| EvCleanMicroblockConsensusBuffer
| EvInitTemp
| EvInitiatePoW.

(** ** The monad of the node's member functions *)

(** What C++ leaves undefined (an unchecked index past the end) and the
    exception of the checked accessor [at]. *)
Inductive fault : Type := UndefinedBehaviour | OutOfRangeException.

(** A statement either falls through with a value, executes [return b],
    or stops on a fault. *)
Inductive flow (A : Type) : Type :=
| Next (a : A)
| Return (b : bool)
| Fault (f : fault).
Arguments Next {A} a.
Arguments Return {A} b.
Arguments Fault {A} f.

Definition M (A : Type) : Type := Node → Node * list event * flow A.

Definition ret {A} (a : A) : M A := λ s, (s, [], Next a).

Definition bind {A B} (m : M A) (k : A → M B) : M B := λ s,
  match m s with
  | (s1, t1, Next a) =>
      match k a s1 with (s2, t2, r) => (s2, t1 ++ t2, r) end
  | (s1, t1, Return b) => (s1, t1, Return b)
  | (s1, t1, Fault f) => (s1, t1, Fault f)
  end.

(** stdpp's notations [x ← m; k] and [m;; k] are those of [bind]. *)
#[global] Instance M_ret : MRet M := @ret.
#[global] Instance M_bind : MBind M := λ A B k m, bind m k.

Definition get : M Node := λ s, (s, [], Next s).
Definition modify (f : Node → Node) : M unit := λ s, (f s, [], Next tt).
Definition emit (e : event) : M unit := λ s, (s, [e], Next tt).
Definition return_ {A} (b : bool) : M A := λ s, (s, [], Return b).
Definition raise {A} (f : fault) : M A := λ s, (s, [], Fault f).

(** [lock_guard<mutex> g(m)] (and [unique_lock]) at the head of a block:
    the lock is released when the block is left, also by [return]. *)
Definition lock_guard {A} (m : mutex) (body : M A) : M A := λ s,
  match body s with
  | (s1, t1, r) => (s1, EvLock m :: t1 ++ [EvUnlock m], r)
  end.

(** [if (!passed) { ...; return false; }] of check [st]. *)
Definition check (st : stage) (passed : bool) : M unit :=
  emit (EvCheck st passed);;
  if passed then ret tt else return_ false.

(** A call of a [bool] member function from another one: the callee's
    [return b] is the value of the call. *)
Definition call (body : M unit) : M bool := λ s,
  match body s with
  | (s1, t1, Return b) => (s1, t1, Next b)
  | (s1, t1, Fault f) => (s1, t1, Fault f)
  | (s1, t1, Next _) => (s1, t1, Fault UndefinedBehaviour)
  end.

(** The outermost call: the final node, the calls made, and the value
    returned if the function returns. *)
Definition run (body : M unit) (s : Node) : Node * list event * option bool :=
  match body s with
  | (s1, t1, Return b) => (s1, t1, Some b)
  | (s1, t1, _) => (s1, t1, None)
  end.

(** [shards[i]]: unchecked. *)
Definition index_unchecked {A} (l : list A) (i : N) : M A :=
  match l !! N.to_nat i with
  | Some x => ret x
  | None => raise UndefinedBehaviour
  end.

(** [shards.at(i)]: checked. *)
Definition index_at {A} (l : list A) (i : N) : M A :=
  match l !! N.to_nat i with
  | Some x => ret x
  | None => raise OutOfRangeException
  end.

(** ** [Node::VerifyFallbackBlockCoSignature] *)

(** The loop that generates the key list: [index] and [count] are
    [unsigned int]; [B2.at(index)] throws past the end of [B2]. *)
Fixpoint select_keys (shard : Shard) (B2 : list bool) (index count : Z)
    (keys : list PubKey) : option (Z * list PubKey) :=
  match shard with
  | [] => Some (count, keys)
  | shardNode :: rest =>
      match B2 !! Z.to_nat index with
      | None => None
      | Some true =>
          select_keys rest B2 (wrap32 (index + 1)) (wrap32 (count + 1))
            (keys ++ [SHARD_NODE_PUBKEY shardNode])
      | Some false =>
          select_keys rest B2 (wrap32 (index + 1)) count keys
      end
  end.

(** The buffer [message] after the three serializer calls. *)
Definition cosig_message (hdr : bytes) (fallbackblock : FallbackBlock) : bytes :=
  let message := write_at [] 0 hdr in
  let message :=
    write_at message (length message)
      (Signature_encoding X (GetCS1 fallbackblock)) in
  write_at message (length message)
    (BitVector_encoding X (GetB1 fallbackblock)).

Definition VerifyFallbackBlockCoSignature_body (fallbackblock : FallbackBlock)
    : M unit :=
  let shard_id := GetShardId (GetHeader fallbackblock) in
  let B2 := GetB2 fallbackblock in
  s ← get;
  shard ← index_unchecked (m_shards s) shard_id;
  if negb (length shard =? length B2)%nat then return_ false else
  match select_keys shard B2 0 0 [] with
  | None => raise OutOfRangeException
  | Some (count, keys) =>
      if negb (count =? NumForConsensus X (Z.of_nat (length B2)))
      then return_ false else
      emit (EvAggregatePubKeys keys);;
      match AggregatePubKeys X keys with
      | None => return_ false
      | Some aggregatedKey =>
          match Header_encoding X (GetHeader fallbackblock) with
          | None => return_ false
          | Some hdr =>
              let message := cosig_message hdr fallbackblock in
              emit (EvMultiSigVerify message 0 (length message)
                      (GetCS2 fallbackblock) aggregatedKey);;
              if negb (MultiSigVerify X message 0 (length message)
                         (GetCS2 fallbackblock) aggregatedKey)
              then return_ false
              else return_ true
          end
      end
  end.

Definition VerifyFallbackBlockCoSignature (fallbackblock : FallbackBlock)
    : M bool :=
  call (VerifyFallbackBlockCoSignature_body fallbackblock).

(** ** [Node::SendFallbackBlockToOtherShardNodes] *)

(** The constants are [unsigned int], as [cluster_size] is. *)
Definition cluster_size_used : Z :=
  let cluster_size := wrap32 (NUM_FORWARDED_BLOCK_RECEIVERS_PER_SHARD X) in
  if cluster_size <=? NUM_DS_ELECTION X
  then wrap32 (NUM_DS_ELECTION X + 1)
  else cluster_size.

Definition SendFallbackBlockToOtherShardNodes (fallbackblock_message : bytes)
    : M unit :=
  emit (EvSendBlockToOtherShardNodes fallbackblock_message cluster_size_used
          (NUM_OF_TREEBASED_CHILD_CLUSTERS X)).

(** ** [Node::ProcessFallbackBlock] *)

(** The [std::find_if] over the shard: is there a member with the
    leader's key and address. *)
Definition leader_found (leaderPubKey : PubKey) (leaderNetworkInfo : Peer)
    (shard : Shard) : bool :=
  existsb (λ item,
    bool_decide (leaderPubKey = SHARD_NODE_PUBKEY item)
    && bool_decide (leaderNetworkInfo = SHARD_NODE_PEER item)) shard.

(** The tolerance handed to [VerifyTimestamp], a sum of [unsigned int]. *)
Definition timestamp_tolerance : Z :=
  wrap32 (wrap32 (wrap32 (CONSENSUS_OBJECT_TIMEOUT X
                          + FALLBACK_INTERVAL_WAITING X)
                  + FALLBACK_CHECK_INTERVAL X)
          + FALLBACK_EXTRA_TIME X).

(** The block guarded by [m_mutexShards]: from the shard check to the
    detached write of the state. *)
Definition shards_block (fallbackblock : FallbackBlock) (shard_id : N)
    : M unit :=
  let header := GetHeader fallbackblock in
  lock_guard m_mutexShards (
    s ← get;
    check SHARD_EXISTENCE_CHECK
      (negb (N.of_nat (length (m_shards s)) <=? shard_id)%N);;
    shard_at ← index_at (m_shards s) shard_id;
    match GetShardHash X shard_at with
    | None => check COMMITTEE_HASH_CHECK false
    | Some committeeHash =>
        check COMMITTEE_HASH_CHECK
          (bool_decide (committeeHash = GetCommitteeHash header))
    end;;
    let leaderConsensusId := GetLeaderConsensusId header in
    shard ← index_unchecked (m_shards s) shard_id;
    let leaderPubKey := GetLeaderPubKey header in
    let leaderNetworkInfo := GetLeaderNetworkInfo header in
    (if (N.of_nat (length shard) <=? leaderConsensusId)%N
     then check LEADER_IDENTITY_CHECK false
     else check LEADER_IDENTITY_CHECK
            (leader_found leaderPubKey leaderNetworkInfo shard));;
    check STATE_ROOT_CHECK
      (bool_decide (accountStateRootHash s = GetStateRootHash header));;
    verified ← VerifyFallbackBlockCoSignature fallbackblock;
    check COSIG_CHECK verified;;
    s ← get;
    let latestInd := wrap64 (GetLatestIndex X (m_blocklinkchain s) + 1) in
    emit (EvAddBlockLink (latestInd, GetFallbackDSEpochNo header, FB,
                          GetBlockHash fallbackblock));;
    modify (λ s, set_blocklinkchain
      (AddBlockLink latestInd (GetFallbackDSEpochNo header) FB
         (GetBlockHash fallbackblock) (m_blocklinkchain s)) s);;
    s ← get;
    match FallbackBlockWShardingStructure_encoding X fallbackblock
            (m_shards s) with
    | None => ret tt
    | Some dst =>
        emit (EvPutFallbackBlock (GetBlockHash fallbackblock) dst);;
        match PutFallbackBlock X (blockStorage s)
                (GetBlockHash fallbackblock) dst with
        | (stored, storage) =>
            modify (set_blockStorage storage);;
            if negb stored then return_ false else ret tt
        end
    end;;
    emit EvFallbackTimerPulse;;
    lock_guard m_mutexDSCommittee (
      s ← get;
      emit EvUpdateDSCommitteeAfterFallback;;
      match UpdateDSCommitteeAfterFallback shard_id leaderPubKey
              leaderNetworkInfo (m_DSCommittee s) (m_shards s) with
      | None => raise UndefinedBehaviour
      | Some dsComm => modify (set_DSCommittee dsComm)
      end);;
    emit EvDetachedFunction_writeStateToDisk).

(** What follows the guarded block: the broadcast and the clean-up of a
    shard node, or the reset of the consensus counters of a lookup. The
    member functions called here ([CleanCreatedTransaction],
    [CleanMicroblockConsensusBuffer], [InitTemp], [InitiatePoW]) are
    defined outside the file: the run records that they are called, and
    what they do to the node is not part of the model, whose node
    carries what the statements of this file themselves write. *)
Definition after_commit (fallbackblock : FallbackBlock) : M unit :=
  if negb (LOOKUP_NODE_MODE X) then
    (if BROADCAST_TREEBASED_CLUSTER_MODE X then
       let message2 :=
         [MessageType_NODE X; NodeInstructionType_FALLBACKBLOCK X] in
       match SetNodeFallbackBlock X message2 (MessageOffset_BODY X)
               fallbackblock with
       | None => ret tt
       | Some message2 => SendFallbackBlockToOtherShardNodes message2
       end
     else ret tt);;
    lock_guard m_mutexProcessedTransactions (
      modify (λ s, set_processedTransactions
        (delete (m_currentEpochNum s) (m_processedTransactions s)) s));;
    emit EvCleanCreatedTransaction;;
    emit EvCleanMicroblockConsensusBuffer;;
    emit EvInitTemp;;
    emit EvInitiatePoW
  else
    modify (set_consensusIDs 0 0).

Definition ProcessFallbackBlock_body (message : bytes) (cur_offset : nat)
    (from : Peer) : M unit :=
  (if negb (CheckState_PROCESS_FALLBACKBLOCK X) then
     lock_guard m_MutexCVFallbackBlock
       (check AWAIT_READY (cv_fallbackBlock_wait_for X))
   else check AWAIT_READY true);;
  match GetNodeFallbackBlock X message cur_offset with
  | None => check DECODE false
  | Some fallbackblock =>
      check DECODE true;;
      let header := GetHeader fallbackblock in
      check VERSION_CHECK (GetVersion header =? FALLBACKBLOCK_VERSION X);;
      check FRESHNESS_CHECK
        (CheckWhetherBlockIsLatest X (GetFallbackDSEpochNo header)
           (GetFallbackEpochNo header));;
      let temp_blockHash := GetMyHash X header in
      check HASH_INTEGRITY_CHECK
        (bool_decide (temp_blockHash = GetBlockHash fallbackblock));;
      check TIMESTAMP_CHECK
        (VerifyTimestamp X (GetTimestamp fallbackblock) timestamp_tolerance);;
      let shard_id := GetShardId header in
      shards_block fallbackblock shard_id;;
      after_commit fallbackblock;;
      return_ true
  end.

(** The call of the member function on a node. *)
Definition ProcessFallbackBlock (message : bytes) (cur_offset : nat)
    (from : Peer) (s : Node) : Node * list event * option bool :=
  run (ProcessFallbackBlock_body message cur_offset from) s.

(** * Properties *)

(** ** The message that is signed *)

Lemma write_at_end (dst data : bytes) :
  write_at dst (length dst) data = dst ++ data.
Proof.
  unfold write_at, resize_up, bytes in *.
  destruct data as [|b data].
  - cbn [length]. rewrite Nat.add_0_r, Nat.ltb_irrefl.
    rewrite take_ge, drop_ge by lia. reflexivity.
  - assert ((length dst <? length dst + length (b :: data))%nat = true) as ->.
    { apply Nat.ltb_lt. cbn [length]. lia. }
    rewrite take_app_length.
    rewrite drop_ge; [by rewrite app_nil_r|].
    rewrite length_app, length_replicate. lia.
Qed.

Lemma cosig_message_eq (hdr : bytes) (fallbackblock : FallbackBlock) :
  cosig_message hdr fallbackblock
  = hdr ++ Signature_encoding X (GetCS1 fallbackblock)
        ++ BitVector_encoding X (GetB1 fallbackblock).
Proof.
  unfold cosig_message.
  change (write_at [] 0 hdr) with (write_at [] (length (@nil byte)) hdr).
  rewrite !write_at_end. cbn [app]. by rewrite <- app_assoc.
Qed.

(** ** The keys selected by a bitmap *)

(** The number of set bits of a bitmap. *)
Definition set_bits (B : list bool) : nat :=
  length (filter (λ b, b = true) B).

(** The keys of the members whose bit is set, in shard order. *)
Fixpoint selected_keys (shard : Shard) (B : list bool) : list PubKey :=
  match shard, B with
  | shardNode :: shard', true :: B' =>
      SHARD_NODE_PUBKEY shardNode :: selected_keys shard' B'
  | _ :: shard', false :: B' => selected_keys shard' B'
  | _, _ => []
  end.

Lemma wrap32_small (z : Z) : 0 ≤ z < 2 ^ 32 → wrap32 z = z.
Proof. intros Hz. unfold wrap32. by apply Z.mod_small. Qed.

Lemma set_bits_le (B : list bool) : (set_bits B ≤ length B)%nat.
Proof. unfold set_bits. apply length_filter. Qed.

Lemma select_keys_from (shard : Shard) :
  ∀ (Bpre Bpost : list bool) (count : Z) (keys : list PubKey),
    length shard = length Bpost →
    Z.of_nat (length (Bpre ++ Bpost)) < 2 ^ 32 →
    0 ≤ count ≤ Z.of_nat (length Bpre) →
    select_keys shard (Bpre ++ Bpost) (Z.of_nat (length Bpre)) count keys
    = Some (count + Z.of_nat (set_bits Bpost),
            keys ++ selected_keys shard Bpost).
Proof.
  induction shard as [|n shard IH]; intros Bpre Bpost count keys Hlen Hsz Hc.
  - destruct Bpost; [|done]. cbn. by rewrite Z.add_0_r, app_nil_r.
  - destruct Bpost as [|b Bpost]; [done|].
    cbn [select_keys]. rewrite Nat2Z.id.
    rewrite lookup_app_r by lia. rewrite Nat.sub_diag. cbn [lookup list_lookup].
    rewrite length_app in Hsz. cbn [length] in Hsz, Hlen.
    assert (wrap32 (Z.of_nat (length Bpre) + 1)
            = Z.of_nat (length (Bpre ++ [b]))) as Hidx.
    { rewrite length_app. cbn [length]. rewrite wrap32_small; lia. }
    rewrite Hidx.
    replace (Bpre ++ b :: Bpost) with ((Bpre ++ [b]) ++ Bpost)
      by (by rewrite <- app_assoc).
    assert (length (Bpre ++ [b]) = S (length Bpre)) as Hl1
      by (rewrite length_app; cbn; lia).
    destruct b.
    + rewrite wrap32_small by lia.
      rewrite IH; [| lia | rewrite length_app; lia | lia ].
      unfold set_bits. rewrite filter_cons_True by done.
      cbn [length selected_keys]. rewrite <- app_assoc. cbn [app].
      f_equal. f_equal. lia.
    + rewrite IH; [| lia | rewrite length_app; lia | lia ].
      unfold set_bits. rewrite filter_cons_False by done.
      reflexivity.
Qed.

(** With a bitmap as long as the shard (and fewer than [2^32] members)
    the loop counts the set bits and collects their keys. *)
Lemma select_keys_spec (shard : Shard) (B2 : list bool) :
  length shard = length B2 →
  Z.of_nat (length B2) < 2 ^ 32 →
  select_keys shard B2 0 0 []
  = Some (Z.of_nat (set_bits B2), selected_keys shard B2).
Proof.
  intros Hlen Hsz.
  pose proof (select_keys_from shard [] B2 0 [] Hlen Hsz) as Hs.
  cbn [app length] in Hs. change (Z.of_nat 0) with 0 in Hs.
  rewrite Hs by lia. reflexivity.
Qed.

Lemma wrap32_succ_le (z : Z) : 0 ≤ z → 0 ≤ wrap32 (z + 1) ≤ z + 1.
Proof.
  intros Hz. unfold wrap32. split.
  - apply Z.mod_pos_bound. lia.
  - apply Z.mod_le; lia.
Qed.

(** [B2.at(index)] never throws when the bitmap is as long as the shard. *)
Lemma select_keys_total (shard : Shard) (B2 : list bool) :
  ∀ (index count : Z) (keys : list PubKey),
    0 ≤ index →
    (Z.to_nat index + length shard ≤ length B2)%nat →
    is_Some (select_keys shard B2 index count keys).
Proof.
  induction shard as [|n shard IH]; intros index count keys Hi Hlen.
  - cbn. eauto.
  - cbn [select_keys]. cbn [length] in Hlen.
    destruct (lookup_lt_is_Some_2 B2 (Z.to_nat index)) as [b Hb]; [lia|].
    rewrite Hb.
    pose proof (wrap32_succ_le index Hi) as Hw.
    destruct b; apply IH; lia.
Qed.

(** ** Running the monad *)

Local Ltac unfold_M :=
  cbv [mbind M_bind bind mret M_ret ret get modify emit return_ raise
       lock_guard check call run index_unchecked index_at].

(** ** The co-signature verifier *)

(** The verifier up to the count check, on a bitmap as long as the
    shard: what is left is the comparison of the count with the threshold
    and the cryptography. *)
Lemma verify_unfold (fallbackblock : FallbackBlock) (s : Node) (shard : Shard) :
  m_shards s !! N.to_nat (GetShardId (GetHeader fallbackblock)) = Some shard →
  length (GetB2 fallbackblock) = length shard →
  Z.of_nat (length shard) < 2 ^ 32 →
  VerifyFallbackBlockCoSignature fallbackblock s
  = let B2 := GetB2 fallbackblock in
    let keys := selected_keys shard B2 in
    if negb (Z.of_nat (set_bits B2) =? NumForConsensus X (Z.of_nat (length B2)))
    then (s, [], Next false)
    else
      match AggregatePubKeys X keys with
      | None => (s, [EvAggregatePubKeys keys], Next false)
      | Some aggregatedKey =>
          match Header_encoding X (GetHeader fallbackblock) with
          | None => (s, [EvAggregatePubKeys keys], Next false)
          | Some hdr =>
              let message := cosig_message hdr fallbackblock in
              (s, [EvAggregatePubKeys keys;
                   EvMultiSigVerify message 0 (length message)
                     (GetCS2 fallbackblock) aggregatedKey],
               Next (MultiSigVerify X message 0 (length message)
                       (GetCS2 fallbackblock) aggregatedKey))
          end
      end.
Proof.
  intros Hshard Hlen Hsz.
  unfold VerifyFallbackBlockCoSignature, VerifyFallbackBlockCoSignature_body.
  unfold_M. unalias. rewrite Hshard.
  assert ((length shard =? length (GetB2 fallbackblock))%nat = true) as ->
    by (apply Nat.eqb_eq; lia).
  rewrite select_keys_spec by lia.
  cbn [negb].
  destruct (Z.of_nat _ =? NumForConsensus X _); cbn [negb]; [|done].
  destruct (AggregatePubKeys X _); [|done].
  destruct (Header_encoding X _); [|done].
  by destruct (MultiSigVerify X _ _ _ _ _).
Qed.

(** The first test of the verifier. *)
Lemma verify_length_mismatch
    (fallbackblock : FallbackBlock) (s : Node) (shard : Shard) :
  m_shards s !! N.to_nat (GetShardId (GetHeader fallbackblock)) = Some shard →
  length (GetB2 fallbackblock) ≠ length shard →
  VerifyFallbackBlockCoSignature fallbackblock s = (s, [], Next false).
Proof.
  intros Hshard Hlen.
  unfold VerifyFallbackBlockCoSignature, VerifyFallbackBlockCoSignature_body.
  unfold_M. unalias. rewrite Hshard.
  assert ((length shard =? length (GetB2 fallbackblock))%nat = false) as ->
    by (apply Nat.eqb_neq; lia).
  reflexivity.
Qed.

(** C5. A fallback block whose bitmap [B2] is not as long as the
    referenced shard is rejected by the co-signature verifier whatever
    the bits are, and before anything else is done: no key is
    aggregated, no signature is verified, the node is untouched. *)
Theorem cosig_bitmap_length_mismatch_rejected
    (fallbackblock : FallbackBlock) (s : Node) (shard : Shard) :
  m_shards s !! N.to_nat (GetShardId (GetHeader fallbackblock)) = Some shard →
  length (GetB2 fallbackblock) ≠ length shard →
  ∀ B2' : list bool,
    length B2' = length (GetB2 fallbackblock) →
    VerifyFallbackBlockCoSignature
      {| GetHeader := GetHeader fallbackblock;
         GetBlockHash := GetBlockHash fallbackblock;
         GetTimestamp := GetTimestamp fallbackblock;
         GetCS1 := GetCS1 fallbackblock; GetB1 := GetB1 fallbackblock;
         GetCS2 := GetCS2 fallbackblock; GetB2 := B2' |} s
    = (s, [], Next false).
Proof.
  intros Hshard Hlen B2' HB2'.
  apply (verify_length_mismatch _ _ shard); cbn; [done | lia].
Qed.

(** C1, as the code has it. With [B2] as long as the shard, the count
    check rejects exactly when the number of set bits differs from
    [NumForConsensus] of the size (more signers than the threshold are
    rejected like fewer); when the two are equal the verifier goes on to
    aggregate the selected keys. *)
Theorem cosig_count_check_is_equality
    (fallbackblock : FallbackBlock) (s : Node) (shard : Shard) :
  m_shards s !! N.to_nat (GetShardId (GetHeader fallbackblock)) = Some shard →
  length (GetB2 fallbackblock) = length shard →
  Z.of_nat (length shard) < 2 ^ 32 →
  let B2 := GetB2 fallbackblock in
  let threshold := NumForConsensus X (Z.of_nat (length B2)) in
  (Z.of_nat (set_bits B2) ≠ threshold →
     VerifyFallbackBlockCoSignature fallbackblock s = (s, [], Next false))
  ∧ (Z.of_nat (set_bits B2) = threshold →
     ∃ t r, VerifyFallbackBlockCoSignature fallbackblock s
            = (s, EvAggregatePubKeys (selected_keys shard B2) :: t, r)).
Proof.
  intros Hshard Hlen Hsz B2 threshold.
  rewrite (verify_unfold _ _ _ Hshard Hlen Hsz). cbv zeta.
  fold B2. fold threshold. split; intros Hcount.
  - apply Z.eqb_neq in Hcount. by rewrite Hcount.
  - apply Z.eqb_eq in Hcount. rewrite Hcount. cbn [negb].
    destruct (AggregatePubKeys X _); [|by eauto].
    destruct (Header_encoding X _); by eauto.
Qed.

(** C4. Whenever the verifier calls [MultiSigVerify], the message is the
    header's serialization followed by that of [CS1] followed by the
    bit-vector encoding of [B1], taken whole (offset 0, full size); the
    signature is [CS2] and the key is the aggregate of the keys that
    [B2] selects from the shard; the verdict of that call is the
    verifier's result. *)
Theorem cosig_message_layout
    (fallbackblock : FallbackBlock) (s s' : Node) (shard : Shard)
    (t : list event) (r : flow bool)
    (message : bytes) (offset size : nat) (sig : Signature) (key : PubKey) :
  m_shards s !! N.to_nat (GetShardId (GetHeader fallbackblock)) = Some shard →
  Z.of_nat (length shard) < 2 ^ 32 →
  VerifyFallbackBlockCoSignature fallbackblock s = (s', t, r) →
  EvMultiSigVerify message offset size sig key ∈ t →
  ∃ hdr,
    Header_encoding X (GetHeader fallbackblock) = Some hdr
    ∧ message = hdr ++ Signature_encoding X (GetCS1 fallbackblock)
                    ++ BitVector_encoding X (GetB1 fallbackblock)
    ∧ offset = 0%nat ∧ size = length message
    ∧ sig = GetCS2 fallbackblock
    ∧ AggregatePubKeys X (selected_keys shard (GetB2 fallbackblock)) = Some key
    ∧ r = Next (MultiSigVerify X message 0 (length message)
                  (GetCS2 fallbackblock) key).
Proof.
  intros Hshard Hsz Hrun Hin.
  destruct (decide (length (GetB2 fallbackblock) = length shard)) as [Hlen|Hlen].
  - rewrite (verify_unfold _ _ _ Hshard Hlen Hsz) in Hrun. cbv zeta in Hrun.
    destruct (negb _) in Hrun.
    { injection Hrun as <- <- <-. by apply elem_of_nil in Hin. }
    destruct (AggregatePubKeys X _) as [aggregatedKey|] eqn:Hagg in Hrun.
    2:{ injection Hrun as <- <- <-.
        apply list_elem_of_singleton in Hin. done. }
    destruct (Header_encoding X _) as [hdr|] eqn:Hhdr in Hrun.
    2:{ injection Hrun as <- <- <-.
        apply list_elem_of_singleton in Hin. done. }
    injection Hrun as <- <- <-.
    apply elem_of_cons in Hin as [Hin|Hin]; [done|].
    apply list_elem_of_singleton in Hin.
    injection Hin as -> -> -> -> ->.
    exists hdr. rewrite <- cosig_message_eq. done.
  - rewrite (verify_length_mismatch _ _ _ Hshard Hlen) in Hrun.
    injection Hrun as <- <- <-. by apply elem_of_nil in Hin.
Qed.

(** ** The succession of the DS committee *)

(** C3, as the code has it. When exactly one member of the shard has the
    leader's key and address, the new committee does not depend on the
    old one: its first element is the leader's pair and the rest are the
    pairs of all other members in shard order. *)
Theorem succession_single_leader_first
    (shard_id : N) (pk : PubKey) (peer : Peer) (dsComm : DequeOfNode)
    (shards : DequeOfShard) (pre post : Shard) (ldr : ShardNode) :
  shards !! N.to_nat shard_id = Some (pre ++ ldr :: post) →
  node_pair ldr = (pk, peer) →
  Forall (λ n, node_pair n ≠ (pk, peer)) (pre ++ post) →
  UpdateDSCommitteeAfterFallback shard_id pk peer dsComm shards
  = Some ((pk, peer) :: (node_pair <$> (pre ++ post))).
Proof.
  intros Hshard Hldr Hothers.
  unfold UpdateDSCommitteeAfterFallback. unalias. rewrite Hshard.
  rewrite succession_fold. unfold deque_clear, leaders, others. unalias.
  apply Forall_app in Hothers as [Hpre Hpost].
  destruct (filter_none_leader pk peer pre Hpre) as [Hpre1 Hpre2].
  destruct (filter_none_leader pk peer post Hpost) as [Hpost1 Hpost2].
  unalias.
  apply is_leader_spec in Hldr.
  rewrite !filter_app, !filter_cons, Hldr.
  rewrite decide_True by done. rewrite decide_False by done.
  rewrite Hpre1, Hpre2, Hpost1, Hpost2. reflexivity.
Qed.

(** ** The size of the broadcast cluster *)

(** C10, as the code has it. The cluster size handed to
    [SendBlockToOtherShardNodes] is the configured number of receivers
    when that exceeds [NUM_DS_ELECTION], and [NUM_DS_ELECTION + 1] in
    [unsigned int] arithmetic otherwise; it exceeds [NUM_DS_ELECTION]
    whenever [NUM_DS_ELECTION] is not the largest [unsigned int]. *)
Theorem cluster_size_exceeds_election (fallbackblock_message : bytes) (s : Node) :
  0 ≤ NUM_FORWARDED_BLOCK_RECEIVERS_PER_SHARD X < 2 ^ 32 →
  0 ≤ NUM_DS_ELECTION X < 2 ^ 32 →
  ∃ cluster_size,
    SendFallbackBlockToOtherShardNodes fallbackblock_message s
    = (s, [EvSendBlockToOtherShardNodes fallbackblock_message cluster_size
             (NUM_OF_TREEBASED_CHILD_CLUSTERS X)], Next tt)
    ∧ cluster_size
      = (if NUM_DS_ELECTION X <? NUM_FORWARDED_BLOCK_RECEIVERS_PER_SHARD X
         then NUM_FORWARDED_BLOCK_RECEIVERS_PER_SHARD X
         else wrap32 (NUM_DS_ELECTION X + 1))
    ∧ (NUM_DS_ELECTION X < 2 ^ 32 - 1 → NUM_DS_ELECTION X < cluster_size).
Proof.
  intros Hfwd Hds. exists cluster_size_used.
  split; [reflexivity|].
  unfold cluster_size_used. rewrite (wrap32_small _ Hfwd).
  destruct (Z.leb_spec (NUM_FORWARDED_BLOCK_RECEIVERS_PER_SHARD X)
              (NUM_DS_ELECTION X)) as [Hle|Hgt];
    destruct (Z.ltb_spec (NUM_DS_ELECTION X)
                (NUM_FORWARDED_BLOCK_RECEIVERS_PER_SHARD X));
    try lia; (split; [reflexivity|]); intros Hmax;
    rewrite ?wrap32_small; lia.
Qed.

(** ** Reading a run *)

#[global] Instance mutex_eq_dec : EqDecision mutex.
Proof. solve_decision. Defined.

#[global] Instance stage_eq_dec : EqDecision stage.
Proof. solve_decision. Defined.

(** The order of the checks. *)
Definition pipeline_order : list stage :=
  [AWAIT_READY; DECODE; VERSION_CHECK; FRESHNESS_CHECK;
   HASH_INTEGRITY_CHECK; TIMESTAMP_CHECK; SHARD_EXISTENCE_CHECK;
   COMMITTEE_HASH_CHECK; LEADER_IDENTITY_CHECK; STATE_ROOT_CHECK;
   COSIG_CHECK].

(** The checks before the co-signature check. *)
Definition checks_before_cosig : list stage := take 10 pipeline_order.

(** The checks a run evaluated, with their outcomes, in order. *)
Definition checks_of (t : list event) : list (stage * bool) :=
  omap (λ e, match e with EvCheck st b => Some (st, b) | _ => None end) t.

Definition all_passed (l : list stage) : list (stage * bool) :=
  (λ st, (st, true)) <$> l.

(** Key aggregation and signature verification. *)
Definition is_crypto (e : event) : bool :=
  match e with
  | EvAggregatePubKeys _ | EvMultiSigVerify _ _ _ _ _ => true
  | _ => false
  end.

Definition is_unlock (e : event) : bool :=
  match e with EvUnlock _ => true | _ => false end.

(** Everything a run does to the node or asks of a collaborator that is
    neither a lock, a check nor cryptography: the commit and what
    follows it. *)
Definition is_effect (e : event) : bool :=
  match e with
  | EvLock _ | EvUnlock _ | EvCheck _ _
  | EvAggregatePubKeys _ | EvMultiSigVerify _ _ _ _ _ => false
  | _ => true
  end.

(** The locks the thread holds, most recent first. *)
Definition lock_step (h : list mutex) (e : event) : list mutex :=
  match e with
  | EvLock m => m :: h
  | EvUnlock m => filter (λ m', m' ≠ m) h
  | _ => h
  end.

Definition held (t : list event) : list mutex := foldl lock_step [] t.

(** A run read from left to right: [n] checks have passed and the locks
    [h] are held. Checks come in the order of the pipeline; after a
    failed check there are only releases of locks and the result is
    [false]; cryptography comes after ten passed checks, under the lock
    of the shards alone; everything else after eleven; and [true] is
    returned after eleven. *)
Fixpoint scan (n : nat) (h : list mutex) (r : option bool) (t : list event)
    : bool :=
  match t with
  | [] =>
      match r with
      | Some true => bool_decide (n = 11%nat)
      | _ => true
      end
  | e :: t' =>
      match e with
      | EvLock _ | EvUnlock _ => scan n (lock_step h e) r t'
      | EvCheck st true =>
          bool_decide (pipeline_order !! n = Some st) && scan (S n) h r t'
      | EvCheck st false =>
          bool_decide (pipeline_order !! n = Some st)
          && forallb is_unlock t' && bool_decide (r = Some false)
      | EvAggregatePubKeys _ | EvMultiSigVerify _ _ _ _ _ =>
          bool_decide (n = 10%nat) && bool_decide (h = [m_mutexShards])
          && scan n h r t'
      | _ => bool_decide (n = 11%nat) && scan n h r t'
      end
  end.

(** *** What a scanned run satisfies *)

Lemma checks_of_cons_check st b t :
  checks_of (EvCheck st b :: t) = (st, b) :: checks_of t.
Proof. reflexivity. Qed.

Lemma forallb_unlock_no_checks t :
  forallb is_unlock t = true → checks_of t = [].
Proof.
  induction t as [|e t IH]; [done|].
  cbn [forallb]. intros [He Ht]%andb_true_iff.
  destruct e; try discriminate He. by apply IH.
Qed.

(** A prefix of a scanned run holds passed checks only, in pipeline
    order, and the scan goes on behind it; or a check has failed and only
    releases of locks follow. *)
Lemma scan_prefix (r : option bool) (t1 : list event) :
  ∀ (t : list event) (n : nat) (h : list mutex),
    scan n h r (t1 ++ t) = true →
    (checks_of t1
       = all_passed (take (length (checks_of t1)) (drop n pipeline_order))
     ∧ scan (n + length (checks_of t1)) (foldl lock_step h t1) r t = true)
    ∨ forallb is_unlock t = true.
Proof.
  induction t1 as [|e t1 IH]; intros t n h Hscan.
  - left. cbn. by rewrite Nat.add_0_r.
  - cbn [app scan] in Hscan.
    destruct e as [m|m|st [|]| | | | | | | | | | | | ];
      repeat match goal with
             | Hb : _ && _ = true |- _ => apply andb_true_iff in Hb as [? ?]
             end;
      try match goal with
          | Hs : scan _ _ _ (t1 ++ t) = true |- _ =>
              destruct (IH _ _ _ Hs) as [[Hc Hs']|Hu]; [left|by right]
          end;
      try done.
    + (* a passed check *)
      match goal with
      | Hb : bool_decide _ = true |- _ =>
          apply bool_decide_eq_true in Hb; rewrite (drop_S _ _ _ Hb)
      end.
      rewrite checks_of_cons_check. cbn [length foldl lock_step].
      cbn [take all_passed fmap list_fmap].
      split; [by f_equal|].
      by replace (n + S (length (checks_of t1)))%nat
        with (S n + length (checks_of t1))%nat by lia.
    + (* a failed check *)
      right.
      match goal with
      | Hu : forallb is_unlock (t1 ++ t) = true |- _ =>
          rewrite forallb_app in Hu; by apply andb_true_iff in Hu as [_ ?]
      end.
Qed.

Local Ltac split_andb :=
  repeat match goal with
         | Hb : _ && _ = true |- _ => apply andb_true_iff in Hb as [? ?]
         end.

(** The checks of a scanned run follow the pipeline. *)
Lemma scan_order (r : option bool) (t : list event) :
  ∀ (n : nat) (h : list mutex),
    scan n h r t = true →
    (fst <$> checks_of t) `prefix_of` drop n pipeline_order.
Proof.
  induction t as [|e t IH]; intros n h Hscan.
  - apply prefix_nil.
  - cbn [scan] in Hscan.
    destruct e as [m|m|st [|]| | | | | | | | | | | | ]; split_andb;
      try (by eapply IH).
    + match goal with
      | Hb : bool_decide _ = true |- _ =>
          apply bool_decide_eq_true in Hb; rewrite (drop_S _ _ _ Hb)
      end.
      rewrite checks_of_cons_check, fmap_cons. cbn [fst].
      apply prefix_cons. by eapply IH.
    + match goal with
      | Hb : bool_decide (_ !! _ = _) = true |- _ =>
          apply bool_decide_eq_true in Hb; rewrite (drop_S _ _ _ Hb)
      end.
      rewrite checks_of_cons_check, forallb_unlock_no_checks by done.
      cbn. apply prefix_cons, prefix_nil.
Qed.

(** A scanned run that returns [true] passed every check that was left. *)
Lemma scan_accept (t : list event) :
  ∀ (n : nat) (h : list mutex),
    scan n h (Some true) t = true →
    checks_of t = all_passed (drop n pipeline_order).
Proof.
  induction t as [|e t IH]; intros n h Hscan.
  - cbn in Hscan. apply bool_decide_eq_true in Hscan as ->. reflexivity.
  - cbn [scan] in Hscan.
    destruct e as [m|m|st [|]| | | | | | | | | | | | ]; split_andb;
      try (by eapply IH).
    + match goal with
      | Hb : bool_decide _ = true |- _ =>
          apply bool_decide_eq_true in Hb; rewrite (drop_S _ _ _ Hb)
      end.
      rewrite checks_of_cons_check. cbn [all_passed fmap list_fmap].
      f_equal. by eapply IH.
    + match goal with
      | Hb : bool_decide (Some true = Some false) = true |- _ =>
          by apply bool_decide_eq_true in Hb
      end.
Qed.

(** What precedes an event of a scanned run. *)
Lemma scan_before (r : option bool) (t t1 t2 : list event) (e : event) :
  scan 0 [] r t = true →
  t = t1 ++ e :: t2 →
  is_unlock e = false →
  checks_of t1 = all_passed (take (length (checks_of t1)) pipeline_order)
  ∧ scan (length (checks_of t1)) (held t1) r (e :: t2) = true.
Proof.
  intros Hscan -> He.
  destruct (scan_prefix r t1 (e :: t2) 0 [] Hscan) as [H1|Hu]; [done|].
  cbn [forallb] in Hu. apply andb_true_iff in Hu as [Hu _]. congruence.
Qed.

Lemma pipeline_order_cosig (k : nat) :
  pipeline_order !! k = Some COSIG_CHECK → k = 10%nat.
Proof.
  do 11 (destruct k as [|k]; [by intros [=]|]). by intros [=].
Qed.

Lemma scan_crypto (r : option bool) (t t1 t2 : list event) (e : event) :
  scan 0 [] r t = true →
  t = t1 ++ e :: t2 →
  is_crypto e = true →
  checks_of t1 = all_passed checks_before_cosig
  ∧ held t1 = [m_mutexShards].
Proof.
  intros Hscan Ht He.
  destruct (scan_before r t t1 t2 e Hscan Ht) as [Hc Hs].
  { by destruct e. }
  destruct e; try discriminate He; cbn [scan] in Hs; split_andb;
    repeat match goal with
           | Hb : bool_decide _ = true |- _ => apply bool_decide_eq_true in Hb
           end;
    split; try done;
    match goal with Hk : length _ = 10%nat |- _ => by rewrite Hk in Hc end.
Qed.

Lemma scan_cosig_check (r : option bool) (t t1 t2 : list event) (b : bool) :
  scan 0 [] r t = true →
  t = t1 ++ EvCheck COSIG_CHECK b :: t2 →
  checks_of t1 = all_passed checks_before_cosig.
Proof.
  intros Hscan Ht.
  destruct (scan_before r t t1 t2 _ Hscan Ht) as [Hc Hs]; [done|].
  cbn [scan] in Hs.
  assert (pipeline_order !! length (checks_of t1) = Some COSIG_CHECK) as Hk.
  { destruct b; split_andb;
      match goal with
      | Hb : bool_decide (_ !! _ = _) = true |- _ =>
          by apply bool_decide_eq_true in Hb
      end. }
  apply pipeline_order_cosig in Hk. by rewrite Hk in Hc.
Qed.

Lemma scan_effect (r : option bool) (t t1 t2 : list event) (e : event) :
  scan 0 [] r t = true →
  t = t1 ++ e :: t2 →
  is_effect e = true →
  checks_of t1 = all_passed pipeline_order.
Proof.
  intros Hscan Ht He.
  destruct (scan_before r t t1 t2 e Hscan Ht) as [Hc Hs].
  { by destruct e. }
  destruct e; try discriminate He; cbn [scan] in Hs; split_andb;
    match goal with
    | Hb : bool_decide (_ = 11%nat) = true |- _ =>
        apply bool_decide_eq_true in Hb; by rewrite Hb in Hc
    end.
Qed.

Lemma scan_failed (r : option bool) (t t1 t2 : list event) (st : stage) :
  scan 0 [] r t = true →
  t = t1 ++ EvCheck st false :: t2 →
  r = Some false ∧ forallb is_unlock t2 = true.
Proof.
  intros Hscan Ht.
  destruct (scan_before r t t1 t2 _ Hscan Ht) as [Hc Hs]; [done|].
  cbn [scan] in Hs. split_andb.
  match goal with
  | Hb : bool_decide (r = _) = true |- _ => apply bool_decide_eq_true in Hb
  end. done.
Qed.

(** ** Every path of [ProcessFallbackBlock] *)

Local Ltac unfold_pfb :=
  unfold ProcessFallbackBlock, ProcessFallbackBlock_body, shards_block,
    after_commit, VerifyFallbackBlockCoSignature,
    VerifyFallbackBlockCoSignature_body, SendFallbackBlockToOtherShardNodes;
  unfold_M.

Local Ltac simpl_node :=
  cbn [m_shards m_DSCommittee m_blocklinkchain blockStorage
       accountStateRootHash m_currentEpochNum m_processedTransactions
       m_consensusID m_consensusLeaderID set_DSCommittee set_blocklinkchain
       set_blockStorage set_processedTransactions set_consensusIDs] in *.

Local Ltac split_on c :=
  destruct c eqn:?; simplify_eq; cbv beta iota zeta; cbn [negb app];
  simpl_node.

(** One branch point of the function: a test, an optional result, the
    pair returned by the storage. *)
Local Ltac pfb_step :=
  match goal with
  | |- context [if negb ?c then _ else _] => split_on c
  | |- context [if ?c then _ else _] => split_on c
  | |- context [match ?c with Some _ => _ | None => _ end] => split_on c
  | |- context [PutFallbackBlock ?a ?b ?c ?d] =>
      split_on (PutFallbackBlock a b c d)
  | |- context [let (_, _) := ?p in _] => is_var p; split_on p
  end.

Local Ltac pfb_cases := unfold_pfb; repeat pfb_step.

(** The branches that would stop on a fault cannot be taken. *)
Local Ltac no_fault :=
  exfalso;
  match goal with
  | Hu : UpdateDSCommitteeAfterFallback _ _ _ _ _ = None,
    Hl : _ !! _ = Some _ |- _ =>
      unfold UpdateDSCommitteeAfterFallback in Hu; unalias;
      rewrite Hl in Hu; discriminate Hu
  | Hl : _ !! _ = None, Hb : (_ <=? _)%N = false |- _ =>
      apply lookup_ge_None in Hl; apply N.leb_gt in Hb; lia
  | Hk : select_keys ?shard ?B2 0 0 [] = None,
    Hb : (_ =? _)%nat = true |- _ =>
      apply Nat.eqb_eq in Hb;
      destruct (select_keys_total shard B2 0 0 []) as [? Hsome];
        [lia | simpl; lia | congruence]
  end.

(** Every run scans. *)
Lemma ProcessFallbackBlock_scan message cur_offset from s :
  match ProcessFallbackBlock message cur_offset from s with
  | (_, t, r) => scan 0 [] r t = true
  end.
Proof. pfb_cases; reflexivity. Qed.

Lemma ProcessFallbackBlock_scans message cur_offset from s s' t r :
  ProcessFallbackBlock message cur_offset from s = (s', t, r) →
  scan 0 [] r t = true.
Proof.
  intros Hrun.
  pose proof (ProcessFallbackBlock_scan message cur_offset from s) as Hs.
  by rewrite Hrun in Hs.
Qed.

(** The function returns on every input: the unchecked and the checked
    accesses it makes stay in range. *)
Lemma ProcessFallbackBlock_returns message cur_offset from s :
  ∃ b, (ProcessFallbackBlock message cur_offset from s).2 = Some b.
Proof. pfb_cases; try (by eexists); no_fault. Qed.

(** A run in which a check fails leaves the node as it was. *)
Lemma failed_check_pure message cur_offset from s :
  match ProcessFallbackBlock message cur_offset from s with
  | (s', t, r) =>
      checks_of t ≠ all_passed pipeline_order → s' = s ∧ r = Some false
  end.
Proof. pfb_cases; intros Hc; try done; try no_fault. Qed.

Definition is_put (e : event) : bool :=
  match e with EvPutFallbackBlock _ _ => true | _ => false end.

(** The link a run adds for the block it decoded. *)
Definition fallback_link (fallbackblock : FallbackBlock) (s : Node)
    : BlockLink :=
  (wrap64 (GetLatestIndex X (m_blocklinkchain s) + 1),
   GetFallbackDSEpochNo (GetHeader fallbackblock), FB,
   GetBlockHash fallbackblock).

(** A run in which every check passes: the commit, by the three outcomes
    of the persistence step. *)
Lemma commit_outcome message cur_offset from s :
  match ProcessFallbackBlock message cur_offset from s with
  | (s', t, r) =>
      checks_of t = all_passed pipeline_order →
      ∃ fallbackblock,
        GetNodeFallbackBlock X message cur_offset = Some fallbackblock
        ∧ m_blocklinkchain s'
          = m_blocklinkchain s ++ [fallback_link fallbackblock s]
        ∧ m_shards s' = m_shards s
        ∧ match FallbackBlockWShardingStructure_encoding X fallbackblock
                  (m_shards s) with
          | None =>
              r = Some true
              ∧ blockStorage s' = blockStorage s
              ∧ forallb (λ e, negb (is_put e)) t = true
              ∧ UpdateDSCommitteeAfterFallback
                  (GetShardId (GetHeader fallbackblock))
                  (GetLeaderPubKey (GetHeader fallbackblock))
                  (GetLeaderNetworkInfo (GetHeader fallbackblock))
                  (m_DSCommittee s) (m_shards s)
                = Some (m_DSCommittee s')
          | Some dst =>
              match PutFallbackBlock X (blockStorage s)
                      (GetBlockHash fallbackblock) dst with
              | (true, storage) =>
                  r = Some true
                  ∧ blockStorage s' = storage
                  ∧ UpdateDSCommitteeAfterFallback
                      (GetShardId (GetHeader fallbackblock))
                      (GetLeaderPubKey (GetHeader fallbackblock))
                      (GetLeaderNetworkInfo (GetHeader fallbackblock))
                      (m_DSCommittee s) (m_shards s)
                    = Some (m_DSCommittee s')
              | (false, storage) =>
                  r = Some false
                  ∧ s' = set_blockStorage storage
                           (set_blocklinkchain
                              (m_blocklinkchain s
                               ++ [fallback_link fallbackblock s]) s)
              end
          end
  end.
Proof.
  pfb_cases; intros Hc; try discriminate Hc; try no_fault;
    eexists; (split; [reflexivity|]);
    repeat match goal with
           | Hr : ?x = _ |- context [?x] => rewrite Hr
           end;
    simpl_node; unfold AddBlockLink, fallback_link; done.
Qed.

(** ** The validation pipeline *)

(** C6. The checks of a run are evaluated in the order readiness,
    decode, version, freshness, header hash, timestamp, shard existence,
    committee hash, leader identity, state root, co-signature; a failed
    check ends the run with [false] and nothing but the release of the
    locks behind it; the co-signature check and its cryptography come
    only after the ten earlier checks have passed; and the commit (and
    all that follows) and the result [true] only after all eleven. *)
Theorem pipeline_order_fail_fast
    (message : bytes) (cur_offset : nat) (from : Peer) (s s' : Node)
    (t : list event) (r : option bool) :
  ProcessFallbackBlock message cur_offset from s = (s', t, r) →
  (fst <$> checks_of t) `prefix_of` pipeline_order
  ∧ (∀ t1 st t2, t = t1 ++ EvCheck st false :: t2 →
       r = Some false ∧ forallb is_unlock t2 = true)
  ∧ (∀ t1 e t2, t = t1 ++ e :: t2 →
       is_crypto e = true ∨ (∃ b, e = EvCheck COSIG_CHECK b) →
       checks_of t1 = all_passed checks_before_cosig)
  ∧ (∀ t1 e t2, t = t1 ++ e :: t2 → is_effect e = true →
       checks_of t1 = all_passed pipeline_order)
  ∧ (r = Some true → checks_of t = all_passed pipeline_order).
Proof.
  intros Hrun. apply ProcessFallbackBlock_scans in Hrun.
  repeat split.
  - by apply (scan_order r t 0 []).
  - by eapply scan_failed.
  - by eapply scan_failed.
  - intros t1 e t2 Ht [He|[b ->]].
    + by eapply scan_crypto.
    + by eapply scan_cosig_check.
  - intros t1 e t2 Ht He. by eapply scan_effect.
  - intros ->. by apply (scan_accept t 0 []).
Qed.

(** C8, as the code has it. Whenever a run aggregates keys or verifies
    the co-signature, the thread holds exactly one lock, that of the
    shards ([m_mutexShards]); the lock of the DS committee is not held. *)
Theorem crypto_holds_shards_lock_only
    (message : bytes) (cur_offset : nat) (from : Peer) (s s' : Node)
    (t t1 t2 : list event) (e : event) (r : option bool) :
  ProcessFallbackBlock message cur_offset from s = (s', t, r) →
  t = t1 ++ e :: t2 →
  is_crypto e = true →
  held t1 = [m_mutexShards].
Proof.
  intros Hrun Ht He. apply ProcessFallbackBlock_scans in Hrun.
  by destruct (scan_crypto r t t1 t2 e Hrun Ht He).
Qed.

(** ** The commit *)

Lemma run_commit_outcome message cur_offset from s s' t r :
  ProcessFallbackBlock message cur_offset from s = (s', t, r) →
  checks_of t = all_passed pipeline_order →
  ∃ fallbackblock,
    GetNodeFallbackBlock X message cur_offset = Some fallbackblock
    ∧ m_blocklinkchain s'
      = m_blocklinkchain s ++ [fallback_link fallbackblock s]
    ∧ m_shards s' = m_shards s
    ∧ match FallbackBlockWShardingStructure_encoding X fallbackblock
              (m_shards s) with
      | None =>
          r = Some true
          ∧ blockStorage s' = blockStorage s
          ∧ forallb (λ e, negb (is_put e)) t = true
          ∧ UpdateDSCommitteeAfterFallback
              (GetShardId (GetHeader fallbackblock))
              (GetLeaderPubKey (GetHeader fallbackblock))
              (GetLeaderNetworkInfo (GetHeader fallbackblock))
              (m_DSCommittee s) (m_shards s)
            = Some (m_DSCommittee s')
      | Some dst =>
          match PutFallbackBlock X (blockStorage s)
                  (GetBlockHash fallbackblock) dst with
          | (true, storage) =>
              r = Some true
              ∧ blockStorage s' = storage
              ∧ UpdateDSCommitteeAfterFallback
                  (GetShardId (GetHeader fallbackblock))
                  (GetLeaderPubKey (GetHeader fallbackblock))
                  (GetLeaderNetworkInfo (GetHeader fallbackblock))
                  (m_DSCommittee s) (m_shards s)
                = Some (m_DSCommittee s')
          | (false, storage) =>
              r = Some false
              ∧ s' = set_blockStorage storage
                       (set_blocklinkchain
                          (m_blocklinkchain s
                           ++ [fallback_link fallbackblock s]) s)
          end
      end.
Proof.
  intros Hrun.
  pose proof (commit_outcome message cur_offset from s) as Hc.
  by rewrite Hrun in Hc.
Qed.


(** C9. When every check passes and the serialization of the block with
    the sharding structure fails, the run still returns [true]: the
    storage is not called and keeps its content, the DS committee is
    replaced by the succession and the BlockLink entry is appended. *)
Theorem encoding_failure_still_accepts
    (message : bytes) (cur_offset : nat) (from : Peer) (s s' : Node)
    (t : list event) (r : option bool) (fallbackblock : FallbackBlock) :
  ProcessFallbackBlock message cur_offset from s = (s', t, r) →
  GetNodeFallbackBlock X message cur_offset = Some fallbackblock →
  checks_of t = all_passed pipeline_order →
  FallbackBlockWShardingStructure_encoding X fallbackblock (m_shards s) = None →
  r = Some true
  ∧ (∀ h dst, EvPutFallbackBlock h dst ∉ t)
  ∧ blockStorage s' = blockStorage s
  ∧ UpdateDSCommitteeAfterFallback
      (GetShardId (GetHeader fallbackblock))
      (GetLeaderPubKey (GetHeader fallbackblock))
      (GetLeaderNetworkInfo (GetHeader fallbackblock))
      (m_DSCommittee s) (m_shards s)
    = Some (m_DSCommittee s')
  ∧ m_blocklinkchain s'
    = m_blocklinkchain s ++ [fallback_link fallbackblock s].
Proof.
  intros Hrun Hdec Hchecks Henc.
  destruct (run_commit_outcome _ _ _ _ _ _ _ Hrun Hchecks)
    as (fb & Hdec' & Hchain & _ & Hout).
  rewrite Hdec in Hdec'. injection Hdec' as <-.
  rewrite Henc in Hout. destruct Hout as (Hr & Hst & Hput & Hds).
  repeat split; try done.
  intros h dst Hin.
  rewrite forallb_forall in Hput.
  apply list_elem_of_In, Hput in Hin. discriminate Hin.
Qed.

(** C2, where the code departs from it. When every check passes and the
    block is serialized but [PutFallbackBlock] fails, the run returns
    [false] and yet the BlockLink chain has grown by the block's entry
    (and the storage is whatever the failed call left). *)
Theorem put_failure_keeps_blocklink
    (message : bytes) (cur_offset : nat) (from : Peer) (s s' : Node)
    (t : list event) (r : option bool) (fallbackblock : FallbackBlock)
    (dst : bytes) (storage : BlockStorage) :
  ProcessFallbackBlock message cur_offset from s = (s', t, r) →
  GetNodeFallbackBlock X message cur_offset = Some fallbackblock →
  checks_of t = all_passed pipeline_order →
  FallbackBlockWShardingStructure_encoding X fallbackblock (m_shards s)
    = Some dst →
  PutFallbackBlock X (blockStorage s) (GetBlockHash fallbackblock) dst
    = (false, storage) →
  r = Some false
  ∧ m_blocklinkchain s'
    = m_blocklinkchain s ++ [fallback_link fallbackblock s]
  ∧ m_blocklinkchain s' ≠ m_blocklinkchain s
  ∧ s' ≠ s.
Proof.
  intros Hrun Hdec Hchecks Henc Hput.
  destruct (run_commit_outcome _ _ _ _ _ _ _ Hrun Hchecks)
    as (fb & Hdec' & Hchain & _ & Hout).
  rewrite Hdec in Hdec'. injection Hdec' as <-.
  rewrite Henc, Hput in Hout. destruct Hout as [Hr Hs'].
  assert (m_blocklinkchain s' ≠ m_blocklinkchain s) as Hne.
  { rewrite Hchain. intros Heq. apply (f_equal length) in Heq.
    rewrite length_app in Heq. cbn in Heq. lia. }
  repeat split; try done. by intros ->.
Qed.

(** The rejections other than that one: a run that returns [false]
    either left the node as it was or is the failed [PutFallbackBlock]. *)
Lemma rejection_outcome message cur_offset from s s' t :
  ProcessFallbackBlock message cur_offset from s = (s', t, Some false) →
  s' = s
  ∨ ∃ fallbackblock dst storage,
      GetNodeFallbackBlock X message cur_offset = Some fallbackblock
      ∧ FallbackBlockWShardingStructure_encoding X fallbackblock (m_shards s)
        = Some dst
      ∧ PutFallbackBlock X (blockStorage s) (GetBlockHash fallbackblock) dst
        = (false, storage)
      ∧ s' = set_blockStorage storage
               (set_blocklinkchain
                  (m_blocklinkchain s ++ [fallback_link fallbackblock s]) s).
Proof.
  intros Hrun.
  destruct (decide (checks_of t = all_passed pipeline_order)) as [Hc|Hc].
  - right.
    destruct (run_commit_outcome _ _ _ _ _ _ _ Hrun Hc)
      as (fb & Hdec & _ & _ & Hout).
    exists fb.
    destruct (FallbackBlockWShardingStructure_encoding X fb (m_shards s))
      as [dst|]; [|by destruct Hout].
    exists dst.
    destruct (PutFallbackBlock X (blockStorage s) (GetBlockHash fb) dst)
      as [[|] storage]; [by destruct Hout|].
    exists storage. by destruct Hout.
  - left.
    pose proof (failed_check_pure message cur_offset from s) as Hp.
    rewrite Hrun in Hp. by destruct (Hp Hc).
Qed.

(** * Further properties of the four functions *)

(** ** [UpdateDSCommitteeAfterFallback] on any shard *)

Lemma succession_members pk peer (shard : Shard) :
  replicate (leaders pk peer shard) (pk, peer) ++ others pk peer shard
  ≡ₚ node_pair <$> shard.
Proof.
  unfold leaders, others. unalias.
  induction shard as [|n shard IH]; [done|].
  rewrite !filter_cons, fmap_cons.
  destruct (is_leader pk peer n) eqn:E.
  - rewrite decide_True by done. rewrite decide_False by done.
    apply is_leader_spec in E. rewrite E. cbn [length replicate app].
    by constructor.
  - rewrite decide_False by done. rewrite decide_True by done.
    rewrite fmap_cons, <- Permutation_middle. by constructor.
Qed.

(** X1. On any shard the new committee is: one leader pair for every
    member that has the leader's key and address, followed by the pairs
    of all other members in shard order. What the committee held before
    plays no part. *)
Theorem succession_shape
    (shard_id : N) (pk : PubKey) (peer : Peer) (dsComm : DequeOfNode)
    (shards : DequeOfShard) (shard : Shard) :
  shards !! N.to_nat shard_id = Some shard →
  UpdateDSCommitteeAfterFallback shard_id pk peer dsComm shards
  = Some (replicate (leaders pk peer shard) (pk, peer)
          ++ others pk peer shard).
Proof.
  intros Hshard.
  unfold UpdateDSCommitteeAfterFallback. unalias. rewrite Hshard.
  by rewrite succession_fold.
Qed.

(** X2. The succession neither drops nor invents a member: the new
    committee is a rearrangement of the shard's (key, address) pairs,
    and so has as many elements as the shard has members. *)
Theorem succession_permutes_shard
    (shard_id : N) (pk : PubKey) (peer : Peer) (dsComm : DequeOfNode)
    (shards : DequeOfShard) (shard : Shard) :
  shards !! N.to_nat shard_id = Some shard →
  ∃ new,
    UpdateDSCommitteeAfterFallback shard_id pk peer dsComm shards = Some new
    ∧ new ≡ₚ node_pair <$> shard
    ∧ length new = length shard.
Proof.
  intros Hshard. eexists. split; [|split].
  - unfold UpdateDSCommitteeAfterFallback. unalias. rewrite Hshard.
    by rewrite succession_fold.
  - unfold deque_clear. cbn [app]. apply succession_members.
  - unfold deque_clear. cbn [app].
    rewrite (Permutation_length (succession_members pk peer shard)).
    apply length_fmap.
Qed.

(** X3. When no member of the shard has the leader's key and address,
    nothing is put in front: the new committee is the shard itself,
    member by member, and the leader is not in it. *)
Theorem succession_without_leader
    (shard_id : N) (pk : PubKey) (peer : Peer) (dsComm : DequeOfNode)
    (shards : DequeOfShard) (shard : Shard) :
  shards !! N.to_nat shard_id = Some shard →
  Forall (λ n, node_pair n ≠ (pk, peer)) shard →
  UpdateDSCommitteeAfterFallback shard_id pk peer dsComm shards
  = Some (node_pair <$> shard)
  ∧ (pk, peer) ∉ (node_pair <$> shard).
Proof.
  intros Hshard Hnone. split.
  - unfold UpdateDSCommitteeAfterFallback. unalias. rewrite Hshard.
    rewrite succession_fold. unfold deque_clear, leaders, others.
    destruct (filter_none_leader pk peer shard Hnone) as [H1 H2].
    unalias. by rewrite H1, H2.
  - intros Hin. apply list_elem_of_fmap in Hin as (n & Hn & Hin).
    rewrite Forall_forall in Hnone. by eapply Hnone.
Qed.

(** ** [VerifyFallbackBlockCoSignature] on any block *)

Lemma selected_keys_length (shard : Shard) :
  ∀ B : list bool,
    length B = length shard →
    length (selected_keys shard B) = set_bits B.
Proof.
  unfold set_bits.
  induction shard as [|n shard IH]; intros [|b B] Hlen; try done.
  cbn [length] in Hlen. destruct b; cbn [selected_keys].
  - rewrite filter_cons_True by done. cbn [length]. f_equal. apply IH. lia.
  - rewrite filter_cons_False by done. apply IH. lia.
Qed.

Lemma selected_keys_sublist (shard : Shard) :
  ∀ B : list bool,
    selected_keys shard B `sublist_of` (SHARD_NODE_PUBKEY <$> shard).
Proof.
  induction shard as [|n shard IH]; intros [|b B]; cbn [selected_keys];
    try apply sublist_nil_l.
  destruct b; rewrite fmap_cons.
  - apply sublist_skip, IH.
  - apply sublist_cons, IH.
Qed.

(** X4. When the referenced shard exists the verifier always comes back
    with a verdict and leaves the node as it was: the checked access
    [B2.at(index)] cannot throw, because the loop is reached only with a
    bitmap as long as the shard. *)
Theorem verifier_returns_verdict
    (fallbackblock : FallbackBlock) (s : Node) (shard : Shard) :
  m_shards s !! N.to_nat (GetShardId (GetHeader fallbackblock)) = Some shard →
  ∃ t b, VerifyFallbackBlockCoSignature fallbackblock s = (s, t, Next b).
Proof.
  intros Hshard.
  destruct (decide (length (GetB2 fallbackblock) = length shard)) as [Hlen|Hlen].
  - unfold VerifyFallbackBlockCoSignature, VerifyFallbackBlockCoSignature_body.
    unfold_M. unalias. rewrite Hshard.
    assert ((length shard =? length (GetB2 fallbackblock))%nat = true) as ->
      by (apply Nat.eqb_eq; lia).
    destruct (select_keys_total shard (GetB2 fallbackblock) 0 0 [])
      as [[count keys] ->]; [lia | simpl; lia |].
    cbn [negb].
    destruct (negb _); [by eauto|].
    destruct (AggregatePubKeys X _); [|by eauto].
    destruct (Header_encoding X _); [|by eauto].
    destruct (negb _); by eauto.
  - rewrite (verify_length_mismatch _ _ _ Hshard Hlen). by eauto.
Qed.

(** X5. The verifier says [true] exactly when: the bitmap is as long as
    the shard, its number of set bits equals the threshold, the selected
    keys aggregate, the header serializes, and [MultiSigVerify] accepts
    [CS2] on the whole message under the aggregated key. *)
Theorem verifier_accepts_iff
    (fallbackblock : FallbackBlock) (s : Node) (shard : Shard) :
  m_shards s !! N.to_nat (GetShardId (GetHeader fallbackblock)) = Some shard →
  Z.of_nat (length shard) < 2 ^ 32 →
  (VerifyFallbackBlockCoSignature fallbackblock s).2 = Next true
  ↔ length (GetB2 fallbackblock) = length shard
    ∧ Z.of_nat (set_bits (GetB2 fallbackblock))
      = NumForConsensus X (Z.of_nat (length shard))
    ∧ ∃ key hdr,
        AggregatePubKeys X (selected_keys shard (GetB2 fallbackblock))
        = Some key
        ∧ Header_encoding X (GetHeader fallbackblock) = Some hdr
        ∧ MultiSigVerify X (cosig_message hdr fallbackblock) 0
            (length (cosig_message hdr fallbackblock))
            (GetCS2 fallbackblock) key = true.
Proof.
  intros Hshard Hsz.
  destruct (decide (length (GetB2 fallbackblock) = length shard)) as [Hlen|Hlen].
  2:{ rewrite (verify_length_mismatch _ _ _ Hshard Hlen). cbn.
      split; [done | by intros [? _]]. }
  rewrite (verify_unfold _ _ _ Hshard Hlen Hsz). cbv zeta. rewrite Hlen.
  destruct (Z.eqb_spec (Z.of_nat (set_bits (GetB2 fallbackblock)))
              (NumForConsensus X (Z.of_nat (length shard)))) as [Hq|Hq];
    cbn [negb].
  2:{ cbn. split; [done | by intros (_ & ? & _)]. }
  destruct (AggregatePubKeys X _) as [key|] eqn:Hagg.
  2:{ cbn. split; [done | by intros (_ & _ & ? & ? & ? & _)]. }
  destruct (Header_encoding X _) as [hdr|] eqn:Hhdr.
  2:{ cbn. split; [done | by intros (_ & _ & ? & ? & _ & ? & _)]. }
  cbn. split.
  - intros [= Hv]. repeat split; try done. by exists key, hdr.
  - intros (_ & _ & key' & hdr' & [= <-] & [= <-] & Hv). by rewrite Hv.
Qed.

(** X6. Keys are only ever aggregated in the exact quorum: the list
    handed to [AggregatePubKeys] is the one [B2] selects, it has as many
    keys as the threshold for the shard's size, and its keys are keys of
    the shard, in shard order. *)
Theorem aggregated_keys_are_quorum
    (fallbackblock : FallbackBlock) (s : Node) (shard : Shard)
    (keys : list PubKey) :
  m_shards s !! N.to_nat (GetShardId (GetHeader fallbackblock)) = Some shard →
  Z.of_nat (length shard) < 2 ^ 32 →
  EvAggregatePubKeys keys ∈ (VerifyFallbackBlockCoSignature fallbackblock s).1.2 →
  keys = selected_keys shard (GetB2 fallbackblock)
  ∧ Z.of_nat (length keys) = NumForConsensus X (Z.of_nat (length shard))
  ∧ keys `sublist_of` (SHARD_NODE_PUBKEY <$> shard).
Proof.
  intros Hshard Hsz Hin.
  destruct (decide (length (GetB2 fallbackblock) = length shard)) as [Hlen|Hlen].
  2:{ rewrite (verify_length_mismatch _ _ _ Hshard Hlen) in Hin.
      by apply elem_of_nil in Hin. }
  rewrite (verify_unfold _ _ _ Hshard Hlen Hsz) in Hin. cbv zeta in Hin.
  rewrite Hlen in Hin.
  destruct (Z.eqb_spec (Z.of_nat (set_bits (GetB2 fallbackblock)))
              (NumForConsensus X (Z.of_nat (length shard)))) as [Hq|Hq];
    cbn [negb] in Hin.
  2:{ by apply elem_of_nil in Hin. }
  assert (keys = selected_keys shard (GetB2 fallbackblock)) as ->.
  { destruct (AggregatePubKeys X _);
      [destruct (Header_encoding X _)|]; cbn in Hin;
      apply elem_of_cons in Hin as [[= ->]|Hin]; try done;
      try (by apply elem_of_nil in Hin).
    apply elem_of_cons in Hin as [?|Hin]; [done|].
    by apply elem_of_nil in Hin. }
  split; [done|]. split; [|apply selected_keys_sublist].
  by rewrite selected_keys_length.
Qed.

(** ** [ProcessFallbackBlock]: faults, rejections, locks *)

(** X7. [ProcessFallbackBlock] returns [true] or [false] on every
    message and node: the unchecked accesses [m_shards[shard_id]] (in the
    function, in the verifier and in the succession) and the checked ones
    ([m_shards.at], [B2.at]) are all reached with an index in range. *)
Theorem process_always_returns
    (message : bytes) (cur_offset : nat) (from : Peer) (s : Node) :
  ∃ s' t b,
    ProcessFallbackBlock message cur_offset from s = (s', t, Some b).
Proof.
  destruct (ProcessFallbackBlock_returns message cur_offset from s) as [b Hb].
  destruct (ProcessFallbackBlock message cur_offset from s) as [[s' t] r].
  cbn in Hb. subst r. by eauto.
Qed.

Lemma failed_check_quiet message cur_offset from s :
  match ProcessFallbackBlock message cur_offset from s with
  | (s', t, r) =>
      checks_of t ≠ all_passed pipeline_order →
      s' = s ∧ r = Some false ∧ forallb (λ e, negb (is_effect e)) t = true
  end.
Proof. pfb_cases; intros Hc; try done; try no_fault. Qed.

(** X8. A run in which some check fails returns [false], leaves every
    member of the node as it was, and calls nothing but the checks (and
    the cryptography of the co-signature check): no BlockLink is added,
    nothing is stored, no timer, committee update, broadcast or
    clean-up. *)
Theorem failed_check_has_no_effect
    (message : bytes) (cur_offset : nat) (from : Peer) (s s' : Node)
    (t : list event) (r : option bool) :
  ProcessFallbackBlock message cur_offset from s = (s', t, r) →
  checks_of t ≠ all_passed pipeline_order →
  s' = s ∧ r = Some false ∧ ∀ e, e ∈ t → is_effect e = false.
Proof.
  intros Hrun Hc.
  pose proof (failed_check_quiet message cur_offset from s) as Hq.
  rewrite Hrun in Hq. destruct (Hq Hc) as (Hs & Hr & Hquiet).
  repeat split; try done.
  intros e He. rewrite forallb_forall in Hquiet.
  apply list_elem_of_In, Hquiet in He. by destruct (is_effect e).
Qed.

(** The locks of a run, read from left to right with the locks [h]
    held: the lock of the DS committee is taken under the lock of the
    shards alone, every other lock with no lock held; a lock is released
    when it is the one taken last; at the end nothing is held. *)
Fixpoint locks_ok (h : list mutex) (t : list event) : bool :=
  match t with
  | [] => bool_decide (h = [])
  | e :: t' =>
      match e with
      | EvLock m =>
          bool_decide
            (h = if bool_decide (m = m_mutexDSCommittee)
                 then [m_mutexShards] else [])
          && locks_ok (lock_step h e) t'
      | EvUnlock m =>
          bool_decide (head h = Some m) && locks_ok (lock_step h e) t'
      | _ => locks_ok h t'
      end
  end.

Lemma locks_ok_prefix (t1 : list event) :
  ∀ (t : list event) (h : list mutex),
    locks_ok h (t1 ++ t) = true →
    locks_ok (foldl lock_step h t1) t = true.
Proof.
  induction t1 as [|e t1 IH]; intros t h Hok; [done|].
  cbn [app locks_ok] in Hok. cbn [foldl].
  destruct e; split_andb; try (by apply IH).
Qed.

Lemma ProcessFallbackBlock_locks message cur_offset from s :
  match ProcessFallbackBlock message cur_offset from s with
  | (_, t, _) => locks_ok [] t = true
  end.
Proof. pfb_cases; reflexivity. Qed.

(** X9. When [ProcessFallbackBlock] returns, by whichever [return], the
    thread holds none of the four locks. *)
Theorem locks_released_on_return
    (message : bytes) (cur_offset : nat) (from : Peer) (s s' : Node)
    (t : list event) (r : option bool) :
  ProcessFallbackBlock message cur_offset from s = (s', t, r) →
  held t = [].
Proof.
  intros Hrun.
  pose proof (ProcessFallbackBlock_locks message cur_offset from s) as Hok.
  rewrite Hrun in Hok.
  rewrite <- (app_nil_r t) in Hok. apply locks_ok_prefix in Hok.
  cbn in Hok. by apply bool_decide_eq_true in Hok.
Qed.

(** X10. The only nesting of locks is the lock of the DS committee
    inside that of the shards: whenever the DS committee's lock is taken
    the thread holds exactly the lock of the shards, and whenever any
    other lock is taken it holds none. *)
Theorem lock_nesting_order
    (message : bytes) (cur_offset : nat) (from : Peer) (s s' : Node)
    (t t1 t2 : list event) (r : option bool) (m : mutex) :
  ProcessFallbackBlock message cur_offset from s = (s', t, r) →
  t = t1 ++ EvLock m :: t2 →
  held t1 = if bool_decide (m = m_mutexDSCommittee)
            then [m_mutexShards] else [].
Proof.
  intros Hrun ->.
  pose proof (ProcessFallbackBlock_locks message cur_offset from s) as Hok.
  rewrite Hrun in Hok. apply locks_ok_prefix in Hok.
  cbn [locks_ok] in Hok. split_andb.
  match goal with
  | Hb : bool_decide (foldl _ _ _ = _) = true |- _ =>
      by apply bool_decide_eq_true in Hb
  end.
Qed.

(** X18. A node that is not in the state for fallback blocks and is not
    signalled within the wait returns [false] under the lock of the
    condition variable alone: the message is not even decoded and the
    node is as it was. *)
Theorem not_ready_timeout_rejects
    (message : bytes) (cur_offset : nat) (from : Peer) (s : Node) :
  CheckState_PROCESS_FALLBACKBLOCK X = false →
  cv_fallbackBlock_wait_for X = false →
  ProcessFallbackBlock message cur_offset from s
  = (s, [EvLock m_MutexCVFallbackBlock; EvCheck AWAIT_READY false;
         EvUnlock m_MutexCVFallbackBlock], Some false).
Proof.
  intros Hstate Hwait. unfold_pfb. rewrite Hstate, Hwait. reflexivity.
Qed.

(** ** [ProcessFallbackBlock]: what is returned *)

(** The tests of the function on a decoded block, in the order of the
    source, as one conjunction. *)
Definition block_passes (fallbackblock : FallbackBlock) (s : Node) : bool :=
  let header := GetHeader fallbackblock in
  (GetVersion header =? FALLBACKBLOCK_VERSION X)
  && CheckWhetherBlockIsLatest X (GetFallbackDSEpochNo header)
       (GetFallbackEpochNo header)
  && bool_decide (GetMyHash X header = GetBlockHash fallbackblock)
  && VerifyTimestamp X (GetTimestamp fallbackblock) timestamp_tolerance
  && match m_shards s !! N.to_nat (GetShardId header) with
     | None => false
     | Some shard =>
         match GetShardHash X shard with
         | None => false
         | Some committeeHash =>
             bool_decide (committeeHash = GetCommitteeHash header)
         end
         && negb (N.of_nat (length shard) <=? GetLeaderConsensusId header)%N
         && leader_found (GetLeaderPubKey header)
              (GetLeaderNetworkInfo header) shard
         && bool_decide (accountStateRootHash s = GetStateRootHash header)
         && match (VerifyFallbackBlockCoSignature fallbackblock s).2 with
            | Next true => true
            | _ => false
            end
     end.

(** The persistence step lets the run go on: the block does not
    serialize (nothing is stored), or the storage takes it. *)
Definition persistence_lets_through (fallbackblock : FallbackBlock)
    (s : Node) : bool :=
  match FallbackBlockWShardingStructure_encoding X fallbackblock
          (m_shards s) with
  | None => true
  | Some dst =>
      (PutFallbackBlock X (blockStorage s) (GetBlockHash fallbackblock) dst).1
  end.

Definition accepts (message : bytes) (cur_offset : nat) (s : Node) : bool :=
  (CheckState_PROCESS_FALLBACKBLOCK X || cv_fallbackBlock_wait_for X)
  && match GetNodeFallbackBlock X message cur_offset with
     | None => false
     | Some fallbackblock =>
         block_passes fallbackblock s
         && persistence_lets_through fallbackblock s
     end.

Local Ltac shard_clash :=
  exfalso;
  match goal with
  | Hl : _ !! _ = Some _, Hb : (_ <=? _)%N = true |- _ =>
      apply lookup_lt_Some in Hl; apply N.leb_le in Hb; lia
  end.

(** X11. [ProcessFallbackBlock] returns [true] exactly when the node is
    ready (in state, or signalled within the wait), the message decodes,
    the block passes the version, freshness, hash, timestamp, shard,
    committee hash, leader, state root and co-signature tests, and the
    persistence step lets it through; it returns [false] otherwise. *)
Theorem process_returns_accepts
    (message : bytes) (cur_offset : nat) (from : Peer) (s : Node) :
  (ProcessFallbackBlock message cur_offset from s).2
  = Some (accepts message cur_offset s).
Proof.
  unfold accepts, block_passes, persistence_lets_through.
  unfold_pfb. unalias.
  repeat (pfb_step; try reflexivity; try no_fault; try shard_clash).
Qed.

(** ** [ProcessFallbackBlock]: the accepted block *)

Lemma leader_found_leaders pk peer (shard : Shard) :
  leader_found pk peer shard = true → (0 < leaders pk peer shard)%nat.
Proof.
  unfold leader_found, leaders. unalias.
  induction shard as [|n shard IH]; [done|].
  cbn [existsb]. rewrite filter_cons. intros Hor.
  destruct (is_leader pk peer n) eqn:E.
  - rewrite decide_True by done. cbn. lia.
  - rewrite decide_False by done.
    apply orb_true_iff in Hor as [Hn|Hrest]; [|by apply IH].
    apply andb_true_iff in Hn as [Hk Hp].
    apply bool_decide_eq_true in Hk, Hp.
    unfold is_leader in E. rewrite <- Hk, <- Hp in E.
    rewrite !bool_decide_eq_true_2 in E by done. done.
Qed.

Lemma accepted_leader_in_shard message cur_offset from s :
  match ProcessFallbackBlock message cur_offset from s with
  | (s', t, r) =>
      r = Some true →
      ∃ fallbackblock shard,
        GetNodeFallbackBlock X message cur_offset = Some fallbackblock
        ∧ m_shards s !! N.to_nat (GetShardId (GetHeader fallbackblock))
          = Some shard
        ∧ leader_found (GetLeaderPubKey (GetHeader fallbackblock))
            (GetLeaderNetworkInfo (GetHeader fallbackblock)) shard = true
        ∧ UpdateDSCommitteeAfterFallback
            (GetShardId (GetHeader fallbackblock))
            (GetLeaderPubKey (GetHeader fallbackblock))
            (GetLeaderNetworkInfo (GetHeader fallbackblock))
            (m_DSCommittee s) (m_shards s)
          = Some (m_DSCommittee s')
  end.
Proof.
  pfb_cases; intros Hr; try discriminate Hr;
    eexists _, _; (split; [reflexivity|]); unalias;
    repeat split; simpl_node; eauto.
Qed.

(** X12. After an accepted block the DS committee begins with the
    leader named in the block's header and is a rearrangement of the
    (key, address) pairs of the header's shard: the search for the
    leader in [ProcessFallbackBlock] guarantees what the succession
    needs to put it in front. *)
Theorem accepted_committee_headed_by_leader
    (message : bytes) (cur_offset : nat) (from : Peer) (s s' : Node)
    (t : list event) :
  ProcessFallbackBlock message cur_offset from s = (s', t, Some true) →
  ∃ fallbackblock shard,
    GetNodeFallbackBlock X message cur_offset = Some fallbackblock
    ∧ m_shards s !! N.to_nat (GetShardId (GetHeader fallbackblock))
      = Some shard
    ∧ head (m_DSCommittee s')
      = Some (GetLeaderPubKey (GetHeader fallbackblock),
              GetLeaderNetworkInfo (GetHeader fallbackblock))
    ∧ m_DSCommittee s' ≡ₚ node_pair <$> shard.
Proof.
  intros Hrun.
  pose proof (accepted_leader_in_shard message cur_offset from s) as Ha.
  rewrite Hrun in Ha.
  destruct (Ha eq_refl) as (fb & shard & Hdec & Hshard & Hfound & Hds).
  exists fb, shard. split; [done|]. split; [done|].
  unfold UpdateDSCommitteeAfterFallback in Hds. unalias.
  rewrite Hshard in Hds. injection Hds as Hds.
  rewrite succession_fold in Hds. unfold deque_clear in Hds.
  cbn [app] in Hds. rewrite <- Hds. split.
  - apply leader_found_leaders in Hfound.
    destruct (leaders _ _ shard); [lia|]. reflexivity.
  - apply succession_members.
Qed.

(** The number of events of a kind in a run. *)
Definition count_events (p : event → bool) (t : list event) : nat :=
  length (List.filter p t).

Local Ltac invert_elem H :=
  repeat (apply elem_of_cons in H as [H|H]; [try discriminate H|]);
  try (by apply elem_of_nil in H).

Lemma put_events message cur_offset from s :
  match ProcessFallbackBlock message cur_offset from s with
  | (s', t, r) =>
      (∀ h dst, EvPutFallbackBlock h dst ∈ t →
         ∃ fallbackblock,
           GetNodeFallbackBlock X message cur_offset = Some fallbackblock
           ∧ h = GetBlockHash fallbackblock
           ∧ FallbackBlockWShardingStructure_encoding X fallbackblock
               (m_shards s) = Some dst
           ∧ blockStorage s'
             = (PutFallbackBlock X (blockStorage s) h dst).2)
      ∧ (count_events is_put t ≤ 1)%nat
      ∧ (count_events is_put t = 0%nat → blockStorage s' = blockStorage s)
  end.
Proof.
  pfb_cases; (split; [|split; [cbn; lia | cbn; try done]]);
    intros h dst Hin; invert_elem Hin; simplify_eq;
    eexists; (split; [reflexivity|]);
    repeat match goal with
           | Hp : PutFallbackBlock _ _ _ _ = _ |- _ => rewrite Hp
           end;
    by repeat split.
Qed.

(** X13. A run asks the storage at most once, and only for the block it
    decoded: the key is that block's hash, the value its serialization
    with the node's shards, and the storage of the node afterwards is
    the one that call returned. A run that does not ask leaves the
    storage as it was. *)
Theorem storage_asked_once_for_block
    (message : bytes) (cur_offset : nat) (from : Peer) (s s' : Node)
    (t : list event) (r : option bool) :
  ProcessFallbackBlock message cur_offset from s = (s', t, r) →
  (∀ h dst, EvPutFallbackBlock h dst ∈ t →
     ∃ fallbackblock,
       GetNodeFallbackBlock X message cur_offset = Some fallbackblock
       ∧ h = GetBlockHash fallbackblock
       ∧ FallbackBlockWShardingStructure_encoding X fallbackblock
           (m_shards s) = Some dst
       ∧ blockStorage s' = (PutFallbackBlock X (blockStorage s) h dst).2)
  ∧ (count_events is_put t ≤ 1)%nat
  ∧ (count_events is_put t = 0%nat → blockStorage s' = blockStorage s).
Proof.
  intros Hrun.
  pose proof (put_events message cur_offset from s) as Hp.
  by rewrite Hrun in Hp.
Qed.

(** ** [ProcessFallbackBlock]: after the commit *)

Definition is_flush (e : event) : bool :=
  match e with EvDetachedFunction_writeStateToDisk => true | _ => false end.

Definition is_send (e : event) : bool :=
  match e with EvSendBlockToOtherShardNodes _ _ _ => true | _ => false end.

(** What only a shard node does after the commit. *)
Definition is_shard_node_effect (e : event) : bool :=
  match e with
  | EvSendBlockToOtherShardNodes _ _ _
  | EvCleanCreatedTransaction
  | EvCleanMicroblockConsensusBuffer
  | EvInitTemp
  | EvInitiatePoW => true
  | _ => false
  end.

(** The end of the run of a shard node that accepts. *)
Definition shard_node_cleanup : list event :=
  [EvLock m_mutexProcessedTransactions;
   EvUnlock m_mutexProcessedTransactions;
   EvCleanCreatedTransaction; EvCleanMicroblockConsensusBuffer;
   EvInitTemp; EvInitiatePoW].

Lemma post_commit_outcome message cur_offset from s :
  match ProcessFallbackBlock message cur_offset from s with
  | (s', t, r) =>
      r = Some true →
      if LOOKUP_NODE_MODE X
      then m_consensusID s' = 0 ∧ m_consensusLeaderID s' = 0
           ∧ m_processedTransactions s' = m_processedTransactions s
           ∧ forallb (λ e, negb (is_shard_node_effect e)) t = true
      else drop (length t - 6) t = shard_node_cleanup
  end.
Proof.
  pfb_cases; intros Hr; try discriminate Hr; by repeat split.
Qed.

(** The four calls by which a shard node starts over. *)
Definition is_reentry (e : event) : bool :=
  match e with
  | EvCleanCreatedTransaction
  | EvCleanMicroblockConsensusBuffer
  | EvInitTemp
  | EvInitiatePoW => true
  | _ => false
  end.

Lemma reentry_events message cur_offset from s :
  match ProcessFallbackBlock message cur_offset from s with
  | (_, t, r) =>
      count_events is_reentry t
      = if bool_decide (r = Some true) && negb (LOOKUP_NODE_MODE X)
        then 4%nat else 0%nat
  end.
Proof. pfb_cases; reflexivity. Qed.

(** X14. A lookup node that accepts a block sets both consensus
    counters to 0 and does none of the work of a shard node: the
    processed transactions are kept, nothing is broadcast or cleaned,
    no proof of work is begun. *)
Theorem lookup_node_resets_counters
    (message : bytes) (cur_offset : nat) (from : Peer) (s s' : Node)
    (t : list event) :
  ProcessFallbackBlock message cur_offset from s = (s', t, Some true) →
  LOOKUP_NODE_MODE X = true →
  m_consensusID s' = 0 ∧ m_consensusLeaderID s' = 0
  ∧ m_processedTransactions s' = m_processedTransactions s
  ∧ ∀ e, e ∈ t → is_shard_node_effect e = false.
Proof.
  intros Hrun Hmode.
  pose proof (post_commit_outcome message cur_offset from s) as Hp.
  rewrite Hrun, Hmode in Hp. destruct (Hp eq_refl) as (H1 & H2 & H3 & H4).
  repeat split; try done.
  intros e He. rewrite forallb_forall in H4.
  apply list_elem_of_In, H4 in He. by destruct (is_shard_node_effect e).
Qed.

(** X15. The four calls by which a shard node starts over (the clean-up
    of created transactions and of the microblock consensus buffer, the
    reset of the temporary account store, the start of the proof of
    work) are made in a run that returns [true] on a node that is not a
    lookup, and in no other run; there each is made once, and they are
    the last calls of the run, in that order, behind the taking and
    release of the lock of the processed transactions, whether or not
    the block was broadcast. *)
Theorem shard_node_cleans_up
    (message : bytes) (cur_offset : nat) (from : Peer) (s s' : Node)
    (t : list event) (r : option bool) :
  ProcessFallbackBlock message cur_offset from s = (s', t, r) →
  count_events is_reentry t
  = (if bool_decide (r = Some true) && negb (LOOKUP_NODE_MODE X)
     then 4 else 0)%nat
  ∧ (r = Some true → LOOKUP_NODE_MODE X = false →
     ∃ t0, t = t0 ++ shard_node_cleanup).
Proof.
  intros Hrun.
  pose proof (reentry_events message cur_offset from s) as Hc.
  pose proof (post_commit_outcome message cur_offset from s) as Hp.
  rewrite Hrun in Hc, Hp. split; [done|].
  intros Hr Hmode. rewrite Hmode in Hp. specialize (Hp Hr).
  exists (take (length t - 6) t). by rewrite <- Hp, take_drop.
Qed.

Lemma broadcast_events message cur_offset from s :
  match ProcessFallbackBlock message cur_offset from s with
  | (s', t, r) =>
      (∀ m cluster_size n,
         EvSendBlockToOtherShardNodes m cluster_size n ∈ t →
         r = Some true
         ∧ LOOKUP_NODE_MODE X = false
         ∧ BROADCAST_TREEBASED_CLUSTER_MODE X = true
         ∧ cluster_size = cluster_size_used
         ∧ n = NUM_OF_TREEBASED_CHILD_CLUSTERS X
         ∧ ∃ fallbackblock,
             GetNodeFallbackBlock X message cur_offset = Some fallbackblock
             ∧ SetNodeFallbackBlock X
                 [MessageType_NODE X; NodeInstructionType_FALLBACKBLOCK X]
                 (MessageOffset_BODY X) fallbackblock
               = Some m)
      ∧ (count_events is_send t ≤ 1)%nat
  end.
Proof.
  pfb_cases; (split; [|cbn; lia]);
    intros m cluster_size n Hin; invert_elem Hin; simplify_eq;
    repeat split; try done; by eexists.
Qed.

(** X16. What a run broadcasts is never the message it received: the
    one broadcast, made only by a shard node in tree-based cluster mode
    for a block it accepted, carries the block encoded anew behind the
    two bytes of the message and instruction types, with the adjusted
    cluster size and the configured number of child clusters. *)
Theorem broadcast_reencodes_block
    (message : bytes) (cur_offset : nat) (from : Peer) (s s' : Node)
    (t : list event) (r : option bool) :
  ProcessFallbackBlock message cur_offset from s = (s', t, r) →
  (∀ m cluster_size n,
     EvSendBlockToOtherShardNodes m cluster_size n ∈ t →
     r = Some true
     ∧ LOOKUP_NODE_MODE X = false
     ∧ BROADCAST_TREEBASED_CLUSTER_MODE X = true
     ∧ cluster_size = cluster_size_used
     ∧ n = NUM_OF_TREEBASED_CHILD_CLUSTERS X
     ∧ ∃ fallbackblock,
         GetNodeFallbackBlock X message cur_offset = Some fallbackblock
         ∧ SetNodeFallbackBlock X
             [MessageType_NODE X; NodeInstructionType_FALLBACKBLOCK X]
             (MessageOffset_BODY X) fallbackblock
           = Some m)
  ∧ (count_events is_send t ≤ 1)%nat.
Proof.
  intros Hrun.
  pose proof (broadcast_events message cur_offset from s) as Hb.
  by rewrite Hrun in Hb.
Qed.

Lemma flush_events message cur_offset from s :
  match ProcessFallbackBlock message cur_offset from s with
  | (_, t, r) =>
      count_events is_flush t
      = if bool_decide (r = Some true) then 1%nat else 0%nat
  end.
Proof. pfb_cases; reflexivity. Qed.

(** X17. The detached write of the state to disk is scheduled once in a
    run that returns [true] and never in any other: acceptance and the
    scheduling of the flush go together. *)
Theorem flush_scheduled_iff_accepted
    (message : bytes) (cur_offset : nat) (from : Peer) (s s' : Node)
    (t : list event) (r : option bool) :
  ProcessFallbackBlock message cur_offset from s = (s', t, r) →
  count_events is_flush t = (if bool_decide (r = Some true) then 1 else 0)%nat
  ∧ (EvDetachedFunction_writeStateToDisk ∈ t ↔ r = Some true).
Proof.
  intros Hrun.
  pose proof (flush_events message cur_offset from s) as Hf.
  rewrite Hrun in Hf. split; [done|].
  unfold count_events in Hf. split.
  - intros Hin. apply list_elem_of_In in Hin.
    assert (In EvDetachedFunction_writeStateToDisk (List.filter is_flush t))
      as Hin' by (by apply filter_In).
    destruct (bool_decide_reflect (r = Some true)); [done|].
    destruct (List.filter is_flush t); [done | discriminate Hf].
  - intros ->. rewrite bool_decide_eq_true_2 in Hf by done.
    destruct (List.filter is_flush t) as [|e l] eqn:Hl; [discriminate Hf|].
    assert (In e (List.filter is_flush t)) as Hin by (rewrite Hl; by left).
    apply filter_In in Hin as [Hin He].
    destruct e; try discriminate He. by apply list_elem_of_In.
Qed.

End FallbackBlockProcessing.

Arguments Next {A} a.
Arguments Return {A} b.
Arguments Fault {A} f.
Arguments ShardNode : clear implicits.
Arguments Shard : clear implicits.
Arguments DequeOfShard : clear implicits.
Arguments DequeOfNode : clear implicits.
Arguments FallbackBlockHeader : clear implicits.
Arguments FallbackBlock : clear implicits.
Arguments BlockLink : clear implicits.
Arguments Node : clear implicits.
Arguments Externals : clear implicits.

(** * A node to run the functions on

    One choice of what lies outside the file, with integers for keys,
    addresses, signatures and hashes and a list of stored blocks for the
    storage: a shard of four members, a threshold of three signers for
    four members (seven for ten), keys aggregated by their sum. *)

Definition sample_header : FallbackBlockHeader Z Z Z Z :=
  {| GetVersion := 1; GetShardId := 0%N; GetLeaderPubKey := 12;
     GetLeaderNetworkInfo := 120; GetLeaderConsensusId := 1%N;
     GetFallbackDSEpochNo := 7; GetFallbackEpochNo := 70;
     GetStateRootHash := 99; GetCommitteeHash := 4 |}.

Definition sample_block (B2 : list bool) : FallbackBlock Z Z Z Z Z Z :=
  {| GetHeader := sample_header; GetBlockHash := 1001; GetTimestamp := 0;
     GetCS1 := 1; GetB1 := [true; true; true; false];
     GetCS2 := 41; GetB2 := B2 |}.

Definition sample_last_index (chain : list (BlockLink Z)) : Z :=
  match last chain with
  | Some (index, _, _, _) => index
  | None => 0
  end.

Definition sample_externals (decoded : option (FallbackBlock Z Z Z Z Z Z))
    (encoded : option bytes) (stored : bool) (num_ds_election : Z)
    : Externals Z Z Z Z Z Z (list (Z * bytes)) :=
  {| FALLBACKBLOCK_VERSION := 1;
     CONSENSUS_OBJECT_TIMEOUT := 10;
     FALLBACK_INTERVAL_WAITING := 20;
     FALLBACK_CHECK_INTERVAL := 5;
     FALLBACK_EXTRA_TIME := 3;
     LOOKUP_NODE_MODE := false;
     BROADCAST_TREEBASED_CLUSTER_MODE := true;
     NUM_FORWARDED_BLOCK_RECEIVERS_PER_SHARD := 3;
     NUM_DS_ELECTION := num_ds_election;
     NUM_OF_TREEBASED_CHILD_CLUSTERS := 3;
     MessageType_NODE := x04;
     NodeInstructionType_FALLBACKBLOCK := x0a;
     MessageOffset_BODY := 2;
     CheckState_PROCESS_FALLBACKBLOCK := true;
     cv_fallbackBlock_wait_for := false;
     GetNodeFallbackBlock := λ _ _, decoded;
     CheckWhetherBlockIsLatest := λ ds epoch, (ds =? 7) && (epoch =? 70);
     GetMyHash := λ header, 1000 + GetVersion header;
     VerifyTimestamp := λ timestamp tolerance, timestamp <=? tolerance;
     GetShardHash := λ shard, Some (Z.of_nat (length shard));
     NumForConsensus := λ size, size - (size - 1) / 3;
     AggregatePubKeys := λ keys,
       match keys with [] => None | _ => Some (foldr Z.add 0 keys) end;
     MultiSigVerify := λ message offset size sig key,
       sig =? key + Z.of_nat size;
     Header_encoding := λ _, Some [x01; x02];
     Signature_encoding := λ _, [x03];
     BitVector_encoding := λ _, [x00; x04];
     FallbackBlockWShardingStructure_encoding := λ _ _, encoded;
     PutFallbackBlock := λ storage h dst,
       (stored, if stored then (h, dst) :: storage else storage);
     GetLatestIndex := sample_last_index;
     SetNodeFallbackBlock := λ dst _ _, Some (dst ++ [x09]) |}.

Definition sample_shard : Shard Z Z :=
  [(11, 110, 0); (12, 120, 0); (13, 130, 0); (14, 140, 0)].

Definition sample_node : Node Z Z Z Z (list (Z * bytes)) unit :=
  {| m_shards := [sample_shard];
     m_DSCommittee := [(1, 10); (2, 20)];
     m_blocklinkchain := [(0, 0, DS, 500)];
     blockStorage := [];
     accountStateRootHash := 99;
     m_currentEpochNum := 7;
     m_processedTransactions := {[ 7 := tt ]};
     m_consensusID := 5;
     m_consensusLeaderID := 6 |}.

(** Three signers of four: the threshold. *)
Definition quorum_bitmap : list bool := [true; true; true; false].

(** All four sign. *)
Definition full_bitmap : list bool := [true; true; true; true].

(** The externals of a verification alone. *)
Definition verifier_externals : Externals Z Z Z Z Z Z (list (Z * bytes)) :=
  sample_externals None None false 5.

(** A block with a quorum arrives; it is serialized and stored. *)
Definition accepting_run : Node Z Z Z Z (list (Z * bytes)) unit
                           * list event * option bool :=
  ProcessFallbackBlock
    (sample_externals (Some (sample_block quorum_bitmap)) (Some [x07]) true 5)
    [] 0 0 sample_node.

(** The same block when its serialization with the shards fails. *)
Definition unserialized_run : Node Z Z Z Z (list (Z * bytes)) unit
                              * list event * option bool :=
  ProcessFallbackBlock
    (sample_externals (Some (sample_block quorum_bitmap)) None true 5)
    [] 0 0 sample_node.

(** The same block when the storage refuses it. *)
Definition unstored_run : Node Z Z Z Z (list (Z * bytes)) unit
                          * list event * option bool :=
  ProcessFallbackBlock
    (sample_externals (Some (sample_block quorum_bitmap)) (Some [x07]) false 5)
    [] 0 0 sample_node.

(** * The properties on the sample node *)

(** ** C1 *)

(** All four members sign where the threshold is three: the bitmap is as
    long as the shard and the count is above the threshold, yet the
    verifier rejects at the count check, with no key aggregated. *)
Lemma cosig_count_above_threshold_rejected :
  let fallbackblock := sample_block full_bitmap in
  m_shards sample_node !! N.to_nat (GetShardId (GetHeader fallbackblock))
    = Some sample_shard
  ∧ length (GetB2 fallbackblock) = length sample_shard
  ∧ NumForConsensus verifier_externals 4
      ≤ Z.of_nat (set_bits (GetB2 fallbackblock))
  ∧ VerifyFallbackBlockCoSignature verifier_externals fallbackblock sample_node
    = (sample_node, [], Next false).
Proof.
  cbv zeta. split; [reflexivity|]. split; [reflexivity|].
  split; [by vm_compute|]. vm_compute. reflexivity.
Qed.

Lemma cosig_count_check_is_equality_witness :
  VerifyFallbackBlockCoSignature verifier_externals
    (sample_block full_bitmap) sample_node
  = (sample_node, [], Next false)
  ∧ ∃ t r,
      VerifyFallbackBlockCoSignature verifier_externals
        (sample_block quorum_bitmap) sample_node
      = (sample_node, EvAggregatePubKeys [11; 12; 13] :: t, r).
Proof.
  split.
  - apply (cosig_count_check_is_equality verifier_externals
             (sample_block full_bitmap) sample_node sample_shard);
      [reflexivity | reflexivity | reflexivity | by vm_compute].
  - apply (cosig_count_check_is_equality verifier_externals
             (sample_block quorum_bitmap) sample_node sample_shard);
      [reflexivity | reflexivity | reflexivity | by vm_compute].
Defined.

(** ** C3 *)

(** A shard in which two members have the leader's key and address:
    both are put in front, so what follows the first element is not the
    rest of the shard in its order, whichever of the two is taken for
    the leader. *)
Lemma succession_duplicate_leader :
  let shard : Shard Z Z := [(1, 10, 0); (7, 70, 0); (7, 70, 1)] in
  (7, 70) ∈ (node_pair <$> shard)
  ∧ UpdateDSCommitteeAfterFallback 0 7 70 [] [shard]
    = Some [(7, 70); (7, 70); (1, 10)]
  ∧ ∀ i ldr,
      shard !! i = Some ldr → node_pair ldr = (7, 70) →
      UpdateDSCommitteeAfterFallback 0 7 70 [] [shard]
      ≠ Some ((7, 70) :: (node_pair <$> delete i shard)).
Proof.
  cbv zeta. split; [|split].
  - vm_compute. apply list_elem_of_further, list_elem_of_here.
  - reflexivity.
  - intros [|[|[|i]]] ldr Hi Hldr; vm_compute; discriminate.
Qed.

Lemma succession_single_leader_first_witness :
  UpdateDSCommitteeAfterFallback 0 12 120 [(1, 10); (2, 20)] [sample_shard]
  = Some [(12, 120); (11, 110); (13, 130); (14, 140)].
Proof.
  apply (succession_single_leader_first 0 12 120 [(1, 10); (2, 20)]
           [sample_shard] [(11, 110, 0)] [(13, 130, 0); (14, 140, 0)]
           (12, 120, 0)).
  - reflexivity.
  - reflexivity.
  - repeat constructor; vm_compute; discriminate.
Defined.

(** ** C4 *)

Lemma cosig_message_layout_witness :
  ∃ hdr,
    Header_encoding verifier_externals sample_header = Some hdr
    ∧ [x01; x02; x03; x00; x04]
      = hdr ++ Signature_encoding verifier_externals 1
            ++ BitVector_encoding verifier_externals
                 [true; true; true; false]
    ∧ 0%nat = 0%nat ∧ 5%nat = length [x01; x02; x03; x00; x04]
    ∧ 41 = 41
    ∧ AggregatePubKeys verifier_externals
        (selected_keys sample_shard quorum_bitmap) = Some 36
    ∧ Next true
      = Next (MultiSigVerify verifier_externals [x01; x02; x03; x00; x04]
                0 (length [x01; x02; x03; x00; x04]) 41 36).
Proof.
  apply (cosig_message_layout verifier_externals (sample_block quorum_bitmap)
           sample_node sample_node sample_shard
           [EvAggregatePubKeys [11; 12; 13];
            EvMultiSigVerify [x01; x02; x03; x00; x04] 0 5 41 36]
           (Next true)).
  - reflexivity.
  - reflexivity.
  - vm_compute. reflexivity.
  - apply list_elem_of_further, list_elem_of_here.
Defined.

(** ** C5 *)

Lemma cosig_bitmap_length_mismatch_rejected_witness :
  VerifyFallbackBlockCoSignature verifier_externals
    (sample_block [false; true; true]) sample_node
  = (sample_node, [], Next false).
Proof.
  apply (cosig_bitmap_length_mismatch_rejected verifier_externals
           (sample_block [true; true; true]) sample_node sample_shard).
  - reflexivity.
  - vm_compute. discriminate.
  - reflexivity.
Defined.

(** ** C10 *)

(** With [NUM_DS_ELECTION] the largest [unsigned int], the adjusted
    cluster size wraps to 0 and is not greater than [NUM_DS_ELECTION]. *)
Lemma cluster_size_wraps_at_max :
  let X := sample_externals None None false (2 ^ 32 - 1) in
  SendFallbackBlockToOtherShardNodes X [x04; x0a] sample_node
  = (sample_node, [EvSendBlockToOtherShardNodes [x04; x0a] 0 3], Next tt)
  ∧ cluster_size_used X = 0
  ∧ ¬ (NUM_DS_ELECTION X < cluster_size_used X).
Proof. cbv zeta. repeat split; by vm_compute. Qed.

Lemma cluster_size_exceeds_election_witness :
  ∃ cluster_size,
    SendFallbackBlockToOtherShardNodes verifier_externals [x04; x0a]
      sample_node
    = (sample_node,
       [EvSendBlockToOtherShardNodes [x04; x0a] cluster_size 3], Next tt)
    ∧ cluster_size = 6
    ∧ (5 < 2 ^ 32 - 1 → 5 < cluster_size).
Proof.
  apply (cluster_size_exceeds_election verifier_externals [x04; x0a]
           sample_node); vm_compute; split; congruence.
Defined.

(** ** C6 *)

Lemma pipeline_order_fail_fast_witness :
  accepting_run.2 = Some true
  ∧ checks_of accepting_run.1.2 = all_passed pipeline_order
  ∧ (fst <$> checks_of accepting_run.1.2) `prefix_of` pipeline_order.
Proof.
  split; [by vm_compute|].
  destruct (pipeline_order_fail_fast
              (sample_externals (Some (sample_block quorum_bitmap))
                 (Some [x07]) true 5)
              [] 0 0 sample_node accepting_run.1.1 accepting_run.1.2
              accepting_run.2)
    as (Horder & _ & _ & _ & Haccept).
  - vm_compute. reflexivity.
  - split; [apply Haccept; by vm_compute | exact Horder].
Defined.

(** ** C7 *)



(** ** C8 *)

(** In the accepting run the keys are aggregated while the thread holds
    the lock of the shards. *)
Lemma cosig_verified_under_shards_lock :
  let t := accepting_run.1.2 in
  t = take 11 t ++ EvAggregatePubKeys [11; 12; 13] :: drop 12 t
  ∧ held (take 11 t) = [m_mutexShards]
  ∧ held (take 11 t) ≠ [].
Proof. cbv zeta. by vm_compute. Qed.

Lemma crypto_holds_shards_lock_only_witness :
  held (take 12 accepting_run.1.2) = [m_mutexShards].
Proof.
  apply (crypto_holds_shards_lock_only
           (sample_externals (Some (sample_block quorum_bitmap))
              (Some [x07]) true 5)
           [] 0 0 sample_node accepting_run.1.1 accepting_run.1.2
           (take 12 accepting_run.1.2) (drop 13 accepting_run.1.2)
           (EvMultiSigVerify [x01; x02; x03; x00; x04] 0 5 41 36)
           accepting_run.2).
  - vm_compute. reflexivity.
  - vm_compute. reflexivity.
  - reflexivity.
Defined.

(** ** C9 *)

Lemma encoding_failure_still_accepts_witness :
  unserialized_run.2 = Some true
  ∧ blockStorage unserialized_run.1.1 = []
  ∧ m_DSCommittee unserialized_run.1.1
    = [(12, 120); (11, 110); (13, 130); (14, 140)]
  ∧ m_blocklinkchain unserialized_run.1.1
    = [(0, 0, DS, 500); (1, 7, FB, 1001)].
Proof.
  destruct (encoding_failure_still_accepts
              (sample_externals (Some (sample_block quorum_bitmap))
                 None true 5)
              [] 0 0 sample_node unserialized_run.1.1 unserialized_run.1.2
              unserialized_run.2 (sample_block quorum_bitmap))
    as (Hr & _ & Hstorage & Hcommittee & Hchain).
  - vm_compute. reflexivity.
  - reflexivity.
  - vm_compute. reflexivity.
  - reflexivity.
  - split; [exact Hr|]. split; [exact Hstorage|].
    split; [|exact Hchain].
    enough (Some (m_DSCommittee unserialized_run.1.1)
            = Some [(12, 120); (11, 110); (13, 130); (14, 140)])
      by congruence.
    rewrite <- Hcommittee. reflexivity.
Defined.

(** ** C2 *)

(** The storage refuses the block: [false] is returned, the committee
    and the storage are as before, and the chain has the new link. *)
Lemma put_failure_keeps_blocklink_witness :
  unstored_run.2 = Some false
  ∧ m_blocklinkchain unstored_run.1.1
    = m_blocklinkchain sample_node ++ [(1, 7, FB, 1001)]
  ∧ m_blocklinkchain unstored_run.1.1 ≠ m_blocklinkchain sample_node
  ∧ unstored_run.1.1 ≠ sample_node.
Proof.
  apply (put_failure_keeps_blocklink
           (sample_externals (Some (sample_block quorum_bitmap))
              (Some [x07]) false 5)
           [] 0 0 sample_node unstored_run.1.1 unstored_run.1.2
           unstored_run.2 (sample_block quorum_bitmap) [x07] []).
  - vm_compute. reflexivity.
  - reflexivity.
  - vm_compute. reflexivity.
  - reflexivity.
  - reflexivity.
Defined.

(** * The further properties on the sample node *)

(** The sample externals with another mode and another state of the
    node (the wait of the sample is never signalled). *)
Definition retune (lookup in_state : bool)
    (X : Externals Z Z Z Z Z Z (list (Z * bytes)))
    : Externals Z Z Z Z Z Z (list (Z * bytes)) :=
  {| FALLBACKBLOCK_VERSION := FALLBACKBLOCK_VERSION X;
     CONSENSUS_OBJECT_TIMEOUT := CONSENSUS_OBJECT_TIMEOUT X;
     FALLBACK_INTERVAL_WAITING := FALLBACK_INTERVAL_WAITING X;
     FALLBACK_CHECK_INTERVAL := FALLBACK_CHECK_INTERVAL X;
     FALLBACK_EXTRA_TIME := FALLBACK_EXTRA_TIME X;
     LOOKUP_NODE_MODE := lookup;
     BROADCAST_TREEBASED_CLUSTER_MODE := BROADCAST_TREEBASED_CLUSTER_MODE X;
     NUM_FORWARDED_BLOCK_RECEIVERS_PER_SHARD :=
       NUM_FORWARDED_BLOCK_RECEIVERS_PER_SHARD X;
     NUM_DS_ELECTION := NUM_DS_ELECTION X;
     NUM_OF_TREEBASED_CHILD_CLUSTERS := NUM_OF_TREEBASED_CHILD_CLUSTERS X;
     MessageType_NODE := MessageType_NODE X;
     NodeInstructionType_FALLBACKBLOCK := NodeInstructionType_FALLBACKBLOCK X;
     MessageOffset_BODY := MessageOffset_BODY X;
     CheckState_PROCESS_FALLBACKBLOCK := in_state;
     cv_fallbackBlock_wait_for := cv_fallbackBlock_wait_for X;
     GetNodeFallbackBlock := GetNodeFallbackBlock X;
     CheckWhetherBlockIsLatest := CheckWhetherBlockIsLatest X;
     GetMyHash := GetMyHash X;
     VerifyTimestamp := VerifyTimestamp X;
     GetShardHash := GetShardHash X;
     NumForConsensus := NumForConsensus X;
     AggregatePubKeys := AggregatePubKeys X;
     MultiSigVerify := MultiSigVerify X;
     Header_encoding := Header_encoding X;
     Signature_encoding := Signature_encoding X;
     BitVector_encoding := BitVector_encoding X;
     FallbackBlockWShardingStructure_encoding :=
       FallbackBlockWShardingStructure_encoding X;
     PutFallbackBlock := PutFallbackBlock X;
     GetLatestIndex := GetLatestIndex X;
     SetNodeFallbackBlock := SetNodeFallbackBlock X |}.

(** The externals of the accepting run. *)
Definition accepting_externals : Externals Z Z Z Z Z Z (list (Z * bytes)) :=
  sample_externals (Some (sample_block quorum_bitmap)) (Some [x07]) true 5.

(** A block signed by all four members, one more than the threshold. *)
Definition rejected_run : Node Z Z Z Z (list (Z * bytes)) unit
                          * list event * option bool :=
  ProcessFallbackBlock
    (sample_externals (Some (sample_block full_bitmap)) (Some [x07]) true 5)
    [] 0 0 sample_node.

(** The accepting run on a lookup node. *)
Definition lookup_run : Node Z Z Z Z (list (Z * bytes)) unit
                        * list event * option bool :=
  ProcessFallbackBlock (retune true true accepting_externals)
    [] 0 0 sample_node.

(** A shard with two members that have the leader's key and address. *)
Definition twin_shard : Shard Z Z := [(1, 10, 0); (7, 70, 0); (7, 70, 1)].

Lemma succession_shape_witness :
  UpdateDSCommitteeAfterFallback 0 7 70 [(9, 90)] [twin_shard]
  = Some ([(7, 70); (7, 70)] ++ [(1, 10)]).
Proof.
  exact (succession_shape 0 7 70 [(9, 90)] [twin_shard] twin_shard eq_refl).
Defined.

Lemma succession_permutes_shard_witness :
  ∃ new,
    UpdateDSCommitteeAfterFallback 0 7 70 [(9, 90)] [twin_shard] = Some new
    ∧ new ≡ₚ node_pair <$> twin_shard
    ∧ length new = length twin_shard.
Proof.
  exact (succession_permutes_shard 0 7 70 [(9, 90)] [twin_shard] twin_shard
           eq_refl).
Defined.

Lemma succession_without_leader_witness :
  UpdateDSCommitteeAfterFallback 0 99 990 [(9, 90)] [sample_shard]
  = Some (node_pair <$> sample_shard)
  ∧ (99, 990) ∉ (node_pair <$> sample_shard).
Proof.
  apply (succession_without_leader 0 99 990 [(9, 90)] [sample_shard]
           sample_shard).
  - reflexivity.
  - repeat constructor; vm_compute; discriminate.
Defined.

Lemma verifier_returns_verdict_witness :
  ∃ t b,
    VerifyFallbackBlockCoSignature verifier_externals
      (sample_block [true; false]) sample_node
    = (sample_node, t, Next b).
Proof.
  exact (verifier_returns_verdict verifier_externals
           (sample_block [true; false]) sample_node sample_shard eq_refl).
Defined.

Lemma verifier_accepts_iff_witness :
  (VerifyFallbackBlockCoSignature verifier_externals
     (sample_block quorum_bitmap) sample_node).2 = Next true.
Proof.
  apply (verifier_accepts_iff verifier_externals (sample_block quorum_bitmap)
           sample_node sample_shard).
  - reflexivity.
  - reflexivity.
  - split; [reflexivity|]. split; [reflexivity|].
    exists 36, [x01; x02]. repeat split; reflexivity.
Defined.

Lemma aggregated_keys_are_quorum_witness :
  [11; 12; 13] = selected_keys sample_shard quorum_bitmap
  ∧ Z.of_nat (length [11; 12; 13])
    = NumForConsensus verifier_externals (Z.of_nat (length sample_shard))
  ∧ [11; 12; 13] `sublist_of` (SHARD_NODE_PUBKEY <$> sample_shard).
Proof.
  apply (aggregated_keys_are_quorum verifier_externals
           (sample_block quorum_bitmap) sample_node sample_shard).
  - reflexivity.
  - reflexivity.
  - vm_compute. apply list_elem_of_here.
Defined.

Lemma failed_check_has_no_effect_witness :
  rejected_run.1.1 = sample_node
  ∧ rejected_run.2 = Some false
  ∧ ∀ e, e ∈ rejected_run.1.2 → is_effect e = false.
Proof.
  apply (failed_check_has_no_effect
           (sample_externals (Some (sample_block full_bitmap)) (Some [x07])
              true 5)
           [] 0 0 sample_node).
  - vm_compute. reflexivity.
  - vm_compute. discriminate.
Defined.

Lemma locks_released_on_return_witness :
  held accepting_run.1.2 = [] ∧ held rejected_run.1.2 = [].
Proof.
  split.
  - apply (locks_released_on_return accepting_externals [] 0 0 sample_node
             accepting_run.1.1 accepting_run.1.2 accepting_run.2).
    vm_compute. reflexivity.
  - apply (locks_released_on_return
             (sample_externals (Some (sample_block full_bitmap))
                (Some [x07]) true 5)
             [] 0 0 sample_node
             rejected_run.1.1 rejected_run.1.2 rejected_run.2).
    vm_compute. reflexivity.
Defined.

Lemma lock_nesting_order_witness :
  held (take 17 accepting_run.1.2) = [m_mutexShards].
Proof.
  apply (lock_nesting_order accepting_externals [] 0 0 sample_node
           accepting_run.1.1 accepting_run.1.2
           (take 17 accepting_run.1.2) (drop 18 accepting_run.1.2)
           accepting_run.2 m_mutexDSCommittee).
  - vm_compute. reflexivity.
  - vm_compute. reflexivity.
Defined.

Lemma not_ready_timeout_rejects_witness :
  ProcessFallbackBlock (retune false false accepting_externals)
    [] 0 0 sample_node
  = (sample_node,
     [EvLock m_MutexCVFallbackBlock; EvCheck AWAIT_READY false;
      EvUnlock m_MutexCVFallbackBlock], Some false).
Proof.
  apply (not_ready_timeout_rejects (retune false false accepting_externals)
           [] 0 0 sample_node); reflexivity.
Defined.

Lemma accepted_committee_headed_by_leader_witness :
  ∃ fallbackblock shard,
    GetNodeFallbackBlock accepting_externals [] 0 = Some fallbackblock
    ∧ m_shards sample_node !! N.to_nat (GetShardId (GetHeader fallbackblock))
      = Some shard
    ∧ head (m_DSCommittee accepting_run.1.1)
      = Some (GetLeaderPubKey (GetHeader fallbackblock),
              GetLeaderNetworkInfo (GetHeader fallbackblock))
    ∧ m_DSCommittee accepting_run.1.1 ≡ₚ node_pair <$> shard.
Proof.
  apply (accepted_committee_headed_by_leader accepting_externals [] 0 0
           sample_node accepting_run.1.1 accepting_run.1.2).
  vm_compute. reflexivity.
Defined.

Lemma storage_asked_once_for_block_witness :
  (count_events is_put accepting_run.1.2 ≤ 1)%nat
  ∧ blockStorage accepting_run.1.1
    = (PutFallbackBlock accepting_externals [] 1001 [x07]).2.
Proof.
  destruct (storage_asked_once_for_block accepting_externals [] 0 0
              sample_node accepting_run.1.1 accepting_run.1.2
              accepting_run.2)
    as (Hput & Hcount & _).
  - vm_compute. reflexivity.
  - split; [exact Hcount|].
    destruct (Hput 1001 [x07]) as (fb & _ & _ & _ & Hstorage).
    + vm_compute. do 15 apply list_elem_of_further. apply list_elem_of_here.
    + exact Hstorage.
Defined.

Lemma lookup_node_resets_counters_witness :
  m_consensusID lookup_run.1.1 = 0
  ∧ m_consensusLeaderID lookup_run.1.1 = 0
  ∧ m_processedTransactions lookup_run.1.1
    = m_processedTransactions sample_node
  ∧ ∀ e, e ∈ lookup_run.1.2 → is_shard_node_effect e = false.
Proof.
  apply (lookup_node_resets_counters (retune true true accepting_externals)
           [] 0 0 sample_node).
  - vm_compute. reflexivity.
  - reflexivity.
Defined.

Lemma shard_node_cleans_up_witness :
  count_events is_reentry accepting_run.1.2 = 4%nat
  ∧ (∃ t0, accepting_run.1.2 = t0 ++ shard_node_cleanup)
  ∧ count_events is_reentry lookup_run.1.2 = 0%nat.
Proof.
  destruct (shard_node_cleans_up accepting_externals [] 0 0 sample_node
              accepting_run.1.1 accepting_run.1.2 accepting_run.2)
    as [Hcount Hlast].
  - vm_compute. reflexivity.
  - split; [exact Hcount|]. split.
    + apply Hlast; reflexivity.
    + apply (shard_node_cleans_up (retune true true accepting_externals)
               [] 0 0 sample_node lookup_run.1.1 lookup_run.1.2
               lookup_run.2).
      vm_compute. reflexivity.
Defined.

Lemma broadcast_reencodes_block_witness :
  (count_events is_send accepting_run.1.2 ≤ 1)%nat
  ∧ SetNodeFallbackBlock accepting_externals [x04; x0a] 2
      (sample_block quorum_bitmap)
    = Some [x04; x0a; x09].
Proof.
  destruct (broadcast_reencodes_block accepting_externals [] 0 0
              sample_node accepting_run.1.1 accepting_run.1.2
              accepting_run.2)
    as (Hsend & Hcount).
  - vm_compute. reflexivity.
  - split; [exact Hcount|].
    destruct (Hsend [x04; x0a; x09] 6 3)
      as (_ & _ & _ & _ & _ & fb & Hdec & Hset).
    + vm_compute. do 22 apply list_elem_of_further. apply list_elem_of_here.
    + injection Hdec as <-. exact Hset.
Defined.

Lemma flush_scheduled_iff_accepted_witness :
  count_events is_flush accepting_run.1.2 = 1%nat
  ∧ count_events is_flush unstored_run.1.2 = 0%nat.
Proof.
  split.
  - apply (flush_scheduled_iff_accepted accepting_externals [] 0 0
             sample_node accepting_run.1.1 accepting_run.1.2
             accepting_run.2).
    vm_compute. reflexivity.
  - apply (flush_scheduled_iff_accepted
             (sample_externals (Some (sample_block quorum_bitmap))
                (Some [x07]) false 5)
             [] 0 0 sample_node unstored_run.1.1 unstored_run.1.2
             unstored_run.2).
    vm_compute. reflexivity.
Defined.
